(** * MonkeyType Desktop shell: window-state persistence and the
      reachability-gated load decision

    A shallow embedding of the two revisions of the Electron main process
    of this repository:

    - [Fs]: the revision that keeps the window geometry in a JSON file it
      reads and writes itself ([fs.existsSync], [fs.readFileSync],
      [JSON.parse], [fs.writeFileSync], each guarded by [try]/[catch]);
    - [Es]: the revision in [src/main.ts], which hands the same record to
      an [electron-store] instance.

    Both share [createWindow].  The JavaScript runtime (JSON, object
    spread, truthiness) and the host (file system, window, probe) are
    modelled first, the program after them, the theorems last. *)

From Stdlib Require Import ZArith QArith List String Ascii Bool Lia.
From Stdlib Require Import DecimalString DecimalZ DecimalPos DecimalN DecimalNat.
Import ListNotations.

Local Open Scope list_scope.
Local Open Scope string_scope.

Set Warnings "-register-all".

(* ================================================================== *)
(** ** Association lists

    JavaScript objects keep their properties in insertion order, and
    assigning an existing key keeps its position. *)

Section Alist.
Context {K V : Type}.
Variable keq : K -> K -> bool.

Fixpoint alist_get (k : K) (l : list (K * V)) : option V :=
  match l with
  | [] => None
  | (k', v) :: r => if keq k k' then Some v else alist_get k r
  end.

Fixpoint alist_set (k : K) (v : V) (l : list (K * V)) : list (K * V) :=
  match l with
  | [] => [(k, v)]
  | (k', v') :: r =>
      if keq k k' then (k', v) :: r else (k', v') :: alist_set k v r
  end.
End Alist.

(* ================================================================== *)
(** ** JSON values

    Numbers are IEEE doubles in the runtime; the model keeps the exact
    rational a literal denotes (in lowest terms), which is the same value
    for every integer a window geometry can hold; where a statement
    classifies a number, the nearest double is computed from it
    ([rounds_to_positive_integer]).  Strings are byte strings. *)

Inductive JValue : Type :=
| JNull
| JBool (b : bool)
| JNum (q : Q)
| JStr (s : string)
| JArr (items : list JValue)
| JObj (props : list (string * JValue)).

Definition JObject : Type := list (string * JValue).

Definition obj_get (k : string) (o : JObject) : option JValue :=
  alist_get String.eqb k o.

Definition obj_set (k : string) (v : JValue) (o : JObject) : JObject :=
  alist_set String.eqb k v o.

Definition JInt (z : Z) : JValue := JNum (inject_Z z).

(** The double quote, which the string notation cannot hold unescaped. *)
Definition dquote : ascii := "034"%char.
Definition backslash : ascii := "092"%char.
Definition newline : ascii := "010"%char.

Definition str1 (c : ascii) : string := String c EmptyString.

(* ================================================================== *)
(** ** [JSON.parse] and [JSON.stringify] *)

Module JSON.

(* ------------------------------------------------------------------ *)
(** *** Character classes *)

Definition is_ws (c : ascii) : bool :=
  let n := nat_of_ascii c in
  (n =? 32)%nat || (n =? 9)%nat || (n =? 10)%nat || (n =? 13)%nat.

Definition is_digit (c : ascii) : bool :=
  let n := nat_of_ascii c in (48 <=? n)%nat && (n <=? 57)%nat.

Definition is_lower (c : ascii) : bool :=
  let n := nat_of_ascii c in (97 <=? n)%nat && (n <=? 122)%nat.

(** What a number literal is made of: digits, sign, point, exponent. *)
Definition is_numchar (c : ascii) : bool :=
  is_digit c || (c =? "-")%char || (c =? "+")%char || (c =? ".")%char
  || (c =? "e")%char || (c =? "E")%char.

Definition hex_digit (c : ascii) : option N :=
  let n := N_of_ascii c in
  if is_digit c then Some (n - 48)%N
  else if ((97 <=? n) && (n <=? 102))%N then Some (n - 87)%N
  else if ((65 <=? n) && (n <=? 70))%N then Some (n - 55)%N
  else None.

(* ------------------------------------------------------------------ *)
(** *** Number literals: [-? int frac? exp?] *)

Fixpoint span_digits (s : string) : string * string :=
  match s with
  | EmptyString => (EmptyString, EmptyString)
  | String c r =>
      if is_digit c
      then let (d, t) := span_digits r in (String c d, t)
      else (EmptyString, s)
  end.

(** The integer part: [0], or digits that do not start with [0]. *)
Definition int_text_value (ds : string) : option Z :=
  match NilEmpty.uint_of_string ds with
  | Some u =>
      if NilEmpty.string_of_uint (Decimal.unorm u) =? ds
      then Some (Z.of_uint u) else None
  | None => None
  end.

(** Any non-empty run of digits (fraction, exponent). *)
Definition digits_value (ds : string) : option Z :=
  match ds with
  | EmptyString => None
  | _ => option_map Z.of_uint (NilEmpty.uint_of_string ds)
  end.

Definition fraction_of (s : string) : option (string * string) :=
  match s with
  | String c r =>
      if (c =? ".")%char
      then let (fp, t) := span_digits r in
           match fp with
           | EmptyString => None
           | _ => Some (fp, t)
           end
      else Some (EmptyString, s)
  | EmptyString => Some (EmptyString, EmptyString)
  end.

Definition exponent_of (s : string) : option Z :=
  match s with
  | EmptyString => Some 0%Z
  | String c r =>
      if ((c =? "e") || (c =? "E"))%char
      then match r with
           | String sg r' =>
               if (sg =? "-")%char then option_map Z.opp (digits_value r')
               else if (sg =? "+")%char then digits_value r'
               else digits_value r
           | EmptyString => None
           end
      else None
  end.

Definition scale10 (m k : Z) : Q :=
  if (0 <=? k)%Z then inject_Z (m * 10 ^ k)
  else Qred (Qmake m (Z.to_pos (10 ^ (- k)))).

Definition split_sign (lit : string) : bool * string :=
  match lit with
  | String c r => if (c =? "-")%char then (true, r) else (false, lit)
  | EmptyString => (false, lit)
  end.

Definition unsigned_literal (neg : bool) (body : string) : option Q :=
  let (ip, rest1) := span_digits body in
  match int_text_value ip, fraction_of rest1 with
  | Some i, Some (fp, rest2) =>
      match exponent_of rest2 with
      | Some e =>
          let len := Z.of_nat (String.length fp) in
          let f := match digits_value fp with Some f => f | None => 0%Z end in
          let m := (i * 10 ^ len + f)%Z in
          Some (scale10 (if neg then (- m)%Z else m) (e - len))
      | None => None
      end
  | _, _ => None
  end.

Definition number_of_literal (lit : string) : option Q :=
  let (neg, body) := split_sign lit in unsigned_literal neg body.

(** The text of an integer, as [JSON.stringify] prints it. *)
Definition dec_of_Z (z : Z) : string := NilEmpty.string_of_int (Z.to_int z).

Definition digit_char (d : Z) : ascii := ascii_of_nat (48 + Z.to_nat d).

Fixpoint frac_digits (fuel : nat) (r d : Z) : string :=
  match fuel with
  | O => EmptyString
  | S f =>
      if (r =? 0)%Z then EmptyString
      else String (digit_char (r * 10 / d)) (frac_digits f (r * 10 mod d) d)
  end.

Definition number_text (q : Q) : string :=
  let n := Qnum q in
  let d := Zpos (Qden q) in
  if (d =? 1)%Z then dec_of_Z n
  else (if (n <? 0)%Z then "-" else EmptyString)
       ++ dec_of_Z (Z.abs n / d) ++ "."
       ++ frac_digits (S (Pos.size_nat (Qden q))) (Z.abs n mod d) d.

(* ------------------------------------------------------------------ *)
(** *** Lexer: one character at a time *)

Inductive Token : Type :=
| TLBrace | TRBrace | TLBracket | TRBracket | TColon | TComma
| TString (s : string)
| TNumber (q : Q)
| TTrue | TFalse | TNull.

Inductive LexState : Type :=
| LIdle
| LNum (lit : string)
| LWord (w : string)
| LStr (acc : string)
| LEsc (acc : string)
| LUni (acc : string) (hex : list N).

Definition snoc (s : string) (c : ascii) : string := s ++ str1 c.

Definition hex_value (ds : list N) : N :=
  fold_left (fun a d => (a * 16 + d)%N) ds 0%N.

(** UTF-8 bytes of a [\uXXXX] code unit. *)
Definition utf8_of_code (n : N) : string :=
  if (n <? 128)%N then str1 (ascii_of_N n)
  else if (n <? 2048)%N then
    String (ascii_of_N (192 + n / 64)) (str1 (ascii_of_N (128 + n mod 64)))
  else
    String (ascii_of_N (224 + n / 4096))
      (String (ascii_of_N (128 + (n / 64) mod 64))
         (str1 (ascii_of_N (128 + n mod 64)))).

Definition idle_step (c : ascii) : option (list Token * LexState) :=
  if is_ws c then Some ([], LIdle)
  else if (c =? "{")%char then Some ([TLBrace], LIdle)
  else if (c =? "}")%char then Some ([TRBrace], LIdle)
  else if (c =? "[")%char then Some ([TLBracket], LIdle)
  else if (c =? "]")%char then Some ([TRBracket], LIdle)
  else if (c =? ":")%char then Some ([TColon], LIdle)
  else if (c =? ",")%char then Some ([TComma], LIdle)
  else if (c =? dquote)%char then Some ([], LStr EmptyString)
  else if is_digit c || (c =? "-")%char then Some ([], LNum (str1 c))
  else if is_lower c then Some ([], LWord (str1 c))
  else None.

Definition close_num (lit : string) : option Token :=
  option_map TNumber (number_of_literal lit).

Definition close_word (w : string) : option Token :=
  if w =? "true" then Some TTrue
  else if w =? "false" then Some TFalse
  else if w =? "null" then Some TNull
  else None.

Definition then_idle (t : option Token) (c : ascii)
  : option (list Token * LexState) :=
  match t, idle_step c with
  | Some t, Some (ts, st) => Some (t :: ts, st)
  | _, _ => None
  end.

Definition unescape (c : ascii) : option ascii :=
  if (c =? dquote)%char then Some dquote
  else if (c =? backslash)%char then Some backslash
  else if (c =? "/")%char then Some "/"%char
  else if (c =? "b")%char then Some "008"%char
  else if (c =? "f")%char then Some "012"%char
  else if (c =? "n")%char then Some "010"%char
  else if (c =? "r")%char then Some "013"%char
  else if (c =? "t")%char then Some "009"%char
  else None.

Definition step (st : LexState) (c : ascii) : option (list Token * LexState) :=
  match st with
  | LIdle => idle_step c
  | LNum lit =>
      if is_numchar c then Some ([], LNum (snoc lit c))
      else then_idle (close_num lit) c
  | LWord w =>
      if is_lower c then Some ([], LWord (snoc w c))
      else then_idle (close_word w) c
  | LStr acc =>
      if (c =? dquote)%char then Some ([TString acc], LIdle)
      else if (c =? backslash)%char then Some ([], LEsc acc)
      else if (nat_of_ascii c <? 32)%nat then None
      else Some ([], LStr (snoc acc c))
  | LEsc acc =>
      if (c =? "u")%char then Some ([], LUni acc [])
      else match unescape c with
           | Some d => Some ([], LStr (snoc acc d))
           | None => None
           end
  | LUni acc hex =>
      match hex_digit c with
      | Some d =>
          let hex' := (hex ++ [d])%list in
          if (List.length hex' =? 4)%nat
          then Some ([], LStr (acc ++ utf8_of_code (hex_value hex')))
          else Some ([], LUni acc hex')
      | None => None
      end
  end.

Definition finish (st : LexState) : option (list Token) :=
  match st with
  | LIdle => Some []
  | LNum lit => option_map (fun t => [t]) (close_num lit)
  | LWord w => option_map (fun t => [t]) (close_word w)
  | _ => None
  end.

Fixpoint lex (st : LexState) (s : string) : option (list Token) :=
  match s with
  | EmptyString => finish st
  | String c r =>
      match step st c with
      | Some (ts, st') => option_map (app ts) (lex st' r)
      | None => None
      end
  end.

(* ------------------------------------------------------------------ *)
(** *** Parser over tokens

    A later duplicate of a key replaces the value and keeps the place of
    the first, as in the runtime. *)

Fixpoint parse_value (fuel : nat) (ts : list Token)
  : option (JValue * list Token) :=
  match fuel with
  | O => None
  | S f =>
      match ts with
      | TNull :: r => Some (JNull, r)
      | TTrue :: r => Some (JBool true, r)
      | TFalse :: r => Some (JBool false, r)
      | TNumber q :: r => Some (JNum q, r)
      | TString s :: r => Some (JStr s, r)
      | TLBracket :: TRBracket :: r => Some (JArr [], r)
      | TLBracket :: r => parse_elems f r []
      | TLBrace :: TRBrace :: r => Some (JObj [], r)
      | TLBrace :: r => parse_members f r []
      | _ => None
      end
  end
with parse_elems (fuel : nat) (ts : list Token) (acc : list JValue)
  : option (JValue * list Token) :=
  match fuel with
  | O => None
  | S f =>
      match parse_value f ts with
      | Some (v, TComma :: r) => parse_elems f r (acc ++ [v])%list
      | Some (v, TRBracket :: r) => Some (JArr (acc ++ [v])%list, r)
      | _ => None
      end
  end
with parse_members (fuel : nat) (ts : list Token) (acc : JObject)
  : option (JValue * list Token) :=
  match fuel with
  | O => None
  | S f =>
      match ts with
      | TString k :: TColon :: r =>
          match parse_value f r with
          | Some (v, TComma :: r') => parse_members f r' (obj_set k v acc)
          | Some (v, TRBrace :: r') => Some (JObj (obj_set k v acc), r')
          | _ => None
          end
      | _ => None
      end
  end.

(** [JSON.parse]: [None] stands for the [SyntaxError] it throws. *)
Definition parse (text : string) : option JValue :=
  match lex LIdle text with
  | Some ts =>
      match parse_value (2 * List.length ts + 1) ts with
      | Some (v, []) => Some v
      | _ => None
      end
  | None => None
  end.

(* ------------------------------------------------------------------ *)
(** *** [JSON.stringify (value, null, space)] *)

Definition hex_char (n : nat) : ascii :=
  if (n <? 10)%nat then ascii_of_nat (48 + n) else ascii_of_nat (87 + n).

Definition escape_char (c : ascii) : string :=
  let n := nat_of_ascii c in
  if (c =? dquote)%char then String backslash (str1 dquote)
  else if (c =? backslash)%char then String backslash (str1 backslash)
  else if (n =? 8)%nat then String backslash "b"
  else if (n =? 12)%nat then String backslash "f"
  else if (n =? 10)%nat then String backslash "n"
  else if (n =? 13)%nat then String backslash "r"
  else if (n =? 9)%nat then String backslash "t"
  else if (n <? 32)%nat then
    String backslash ("u00" ++ String (hex_char (n / 16)) (str1 (hex_char (n mod 16))))
  else str1 c.

Fixpoint escape (s : string) : string :=
  match s with
  | EmptyString => EmptyString
  | String c r => escape_char c ++ escape r
  end.

Definition quote (s : string) : string :=
  String dquote (escape s ++ str1 dquote).

Fixpoint spaces (n : nat) : string :=
  match n with
  | O => EmptyString
  | S k => String " " (spaces k)
  end.

Section Stringify.
Variable gap : string.

Definition line_break (ind : string) : string :=
  match gap with
  | EmptyString => EmptyString
  | _ => String newline ind
  end.

Definition colon : string :=
  match gap with
  | EmptyString => ":"
  | _ => ": "
  end.

Fixpoint stringify_at (ind : string) (v : JValue) : string :=
  match v with
  | JNull => "null"
  | JBool true => "true"
  | JBool false => "false"
  | JNum q => number_text q
  | JStr s => quote s
  | JArr [] => "[]"
  | JArr items =>
      let ind' := ind ++ gap in
      "[" ++ line_break ind'
      ++ (fix go (l : list JValue) : string :=
            match l with
            | [] => EmptyString
            | x :: r =>
                stringify_at ind' x
                ++ match r with
                   | [] => EmptyString
                   | _ => "," ++ line_break ind' ++ go r
                   end
            end) items
      ++ line_break ind ++ "]"
  | JObj [] => "{}"
  | JObj props =>
      let ind' := ind ++ gap in
      "{" ++ line_break ind'
      ++ (fix go (l : list (string * JValue)) : string :=
            match l with
            | [] => EmptyString
            | (k, x) :: r =>
                quote k ++ colon ++ stringify_at ind' x
                ++ match r with
                   | [] => EmptyString
                   | _ => "," ++ line_break ind' ++ go r
                   end
            end) props
      ++ line_break ind ++ "}"
  end.
End Stringify.

Definition stringify (v : JValue) (space : nat) : string :=
  stringify_at (spaces space) EmptyString v.

End JSON.

Import JSON.

(* ------------------------------------------------------------------ *)
(** *** Object spread and truthiness

    [{...a, ...b}] copies the own enumerable properties of [a], then of
    [b]: the properties of an object, the elements of an array and the
    characters of a string under their index, nothing for [null], a
    boolean or a number.  The runtime enumerates index keys before the
    others; the model keeps insertion order, and what is said of such
    objects is said through [obj_get]. *)

Definition index_key (i : nat) : string :=
  NilEmpty.string_of_uint (Nat.to_uint i).

Fixpoint chars_props (i : nat) (s : string) : JObject :=
  match s with
  | EmptyString => []
  | String c r => (index_key i, JStr (str1 c)) :: chars_props (S i) r
  end.

Fixpoint items_props (i : nat) (l : list JValue) : JObject :=
  match l with
  | [] => []
  | x :: r => (index_key i, x) :: items_props (S i) r
  end.

Definition own_props (v : JValue) : JObject :=
  match v with
  | JObj props => props
  | JArr items => items_props 0 items
  | JStr s => chars_props 0 s
  | _ => []
  end.

Definition assign_all (target source : JObject) : JObject :=
  fold_left (fun acc kv => obj_set (fst kv) (snd kv) acc) source target.

Definition spread_into (target : JObject) (v : JValue) : JObject :=
  assign_all target (own_props v).

(** The test of [if (e)], on a property that may be undefined. *)
Definition truthy (v : option JValue) : bool :=
  match v with
  | None => false
  | Some JNull => false
  | Some (JBool b) => b
  | Some (JNum q) => negb (Qnum q =? 0)%Z
  | Some (JStr s) => negb (s =? EmptyString)
  | Some (JArr _) => true
  | Some (JObj _) => true
  end.

(* ================================================================== *)
(** ** The host: file system, store, window, probe *)

(** [path.join (app.getPath (userData), name)] and
    [path.join (__dirname, name)]. *)
Inductive Path : Type :=
| UserData (name : string)
| AppDir (name : string).

Definition path_eqb (p r : Path) : bool :=
  match p, r with
  | UserData a, UserData b => a =? b
  | AppDir a, AppDir b => a =? b
  | _, _ => false
  end.

Inductive Error : Type :=
| SyntaxError
| IOError (syscall : string)
| TypeError
| ProbeError
| StoreError.

Record Rectangle : Type := {
  rect_x : Z;
  rect_y : Z;
  rect_width : Z;
  rect_height : Z
}.

(** The options [createWindow] passes to [new BrowserWindow]; a property
    the loaded record lacks is passed as undefined. *)
Record WindowOptions : Type := {
  opt_width : option JValue;
  opt_height : option JValue;
  opt_x : option JValue;
  opt_y : option JValue;
  opt_preload : Path;
  opt_sandbox : bool;
  opt_icon : Path;
  opt_frame : bool;
  opt_autoHideMenuBar : bool;
  opt_show : bool
}.

Inductive Listener : Type :=
| OnSaveWindowState
| OnShow.

Inductive Content : Type :=
| Remote (url : string)
| LocalFile (file : string).

(** A listener registered with [on] or, to run once, with [once]. *)
Record Registration : Type := {
  reg_event : string;
  reg_once : bool;
  reg_listener : Listener
}.

Record Window : Type := {
  win_options : WindowOptions;
  win_bounds : Rectangle;
  win_maximized : bool;
  win_visible : bool;
  win_listeners : list Registration;
  win_content : option Content
}.

Inductive Probe : Type :=
| ProbeOnline
| ProbeOffline
| ProbeThrows.

(** What a failing [fs.writeFileSync] leaves behind is up to the host:
    the old file, a truncated one, or none. *)
Inductive WriteBehaviour : Type :=
| WriteOk
| WriteFails (left_behind : option string).

Record Host : Type := {
  read_fault : bool;
  write_behaviour : WriteBehaviour;
  store_fault : bool;
  probe : Probe;
  layout : WindowOptions -> Rectangle;
  work_area : Rectangle
}.

Inductive Event : Type :=
| EvExists (p : Path)
| EvRead (p : Path)
| EvWrite (p : Path) (text : string)
| EvError (msg : string) (e : Error)
| EvStoreGet (key : string)
| EvStoreSet (key : string) (v : JObject)
| EvNewWindow (o : WindowOptions)
| EvMaximize
| EvShow
| EvOn (name : string) (l : Listener)
| EvOnce (name : string) (l : Listener)
| EvProbe
| EvLoadURL (url : string)
| EvLoadFile (file : string).

Record World : Type := {
  host : Host;
  fs : Path -> option string;
  store_windowState : option JObject;
  mainWindow : option Window;
  trace : list Event
}.

(* ------------------------------------------------------------------ *)
(** *** Computations: state and exceptions *)

Inductive Outcome (A : Type) : Type :=
| Ret (a : A)
| Throw (e : Error).

Arguments Ret {A} a.
Arguments Throw {A} e.

Definition M (A : Type) : Type := World -> Outcome A * World.

Definition ret {A} (a : A) : M A := fun w => (Ret a, w).

Definition throw {A} (e : Error) : M A := fun w => (Throw e, w).

Definition bind {A B} (m : M A) (k : A -> M B) : M B :=
  fun w =>
    match m w with
    | (Ret a, w') => k a w'
    | (Throw e, w') => (Throw e, w')
    end.

Definition try_catch {A} (body : M A) (handler : Error -> M A) : M A :=
  fun w =>
    match body w with
    | (Ret a, w') => (Ret a, w')
    | (Throw e, w') => handler e w'
    end.

Declare Scope js_scope.
Delimit Scope js_scope with js.
Notation "x <- c1 ;; c2" := (bind c1 (fun x => c2))
  (at level 61, c1 at next level, right associativity) : js_scope.
Notation "c1 ;; c2" := (bind c1 (fun _ => c2))
  (at level 61, right associativity) : js_scope.
Local Open Scope js_scope.

Definition emit (e : Event) (w : World) : World :=
  {| host := host w; fs := fs w; store_windowState := store_windowState w;
     mainWindow := mainWindow w; trace := (trace w ++ [e])%list |}.

Definition set_file (p : Path) (c : option string) (w : World) : World :=
  {| host := host w;
     fs := fun r => if path_eqb r p then c else fs w r;
     store_windowState := store_windowState w;
     mainWindow := mainWindow w; trace := trace w |}.

Definition set_store (v : option JObject) (w : World) : World :=
  {| host := host w; fs := fs w; store_windowState := v;
     mainWindow := mainWindow w; trace := trace w |}.

Definition set_window (mw : option Window) (w : World) : World :=
  {| host := host w; fs := fs w; store_windowState := store_windowState w;
     mainWindow := mw; trace := trace w |}.

(** [fs.existsSync] never throws. *)
Definition fs_existsSync (p : Path) : M bool :=
  fun w =>
    (Ret (match fs w p with Some _ => true | None => false end),
     emit (EvExists p) w).

Definition fs_readFileSync (p : Path) : M string :=
  fun w =>
    let w' := emit (EvRead p) w in
    if read_fault (host w) then (Throw (IOError "read"), w')
    else match fs w p with
         | Some text => (Ret text, w')
         | None => (Throw (IOError "open"), w')
         end.

Definition fs_writeFileSync (p : Path) (text : string) : M unit :=
  fun w =>
    let w' := emit (EvWrite p text) w in
    match write_behaviour (host w) with
    | WriteOk => (Ret tt, set_file p (Some text) w')
    | WriteFails left_behind => (Throw (IOError "write"), set_file p left_behind w')
    end.

Definition console_error (msg : string) (e : Error) : M unit :=
  fun w => (Ret tt, emit (EvError msg e) w).

Definition JSON_parse_or_throw (text : string) : M JValue :=
  match JSON.parse text with
  | Some v => ret v
  | None => throw SyntaxError
  end.

Definition isOnline : M bool :=
  fun w =>
    let w' := emit EvProbe w in
    match probe (host w) with
    | ProbeOnline => (Ret true, w')
    | ProbeOffline => (Ret false, w')
    | ProbeThrows => (Throw ProbeError, w')
    end.

(** [mainWindow = new BrowserWindow (options)]. *)
Definition new_BrowserWindow (o : WindowOptions) : M unit :=
  fun w =>
    (Ret tt,
     set_window
       (Some {| win_options := o; win_bounds := layout (host w) o;
                win_maximized := false; win_visible := opt_show o;
                win_listeners := []; win_content := None |})
       (emit (EvNewWindow o) w)).

(** Reading the variable [mainWindow], as in [if (!mainWindow)]. *)
Definition get_mainWindow : M (option Window) :=
  fun w => (Ret (mainWindow w), w).

(** A method call on [mainWindow]; on an unset handle the runtime
    throws a [TypeError]. *)
Definition with_window (e : Event) (f : World -> Window -> Window) : M unit :=
  fun w =>
    match mainWindow w with
    | None => (Throw TypeError, w)
    | Some win => (Ret tt, set_window (Some (f w win)) (emit e w))
    end.

(** A query leaves the window as it is. *)
Definition ask_window {A} (f : Window -> A) : M A :=
  fun w =>
    match mainWindow w with
    | None => (Throw TypeError, w)
    | Some win => (Ret (f win), w)
    end.

Definition mainWindow_isMaximized : M bool := ask_window win_maximized.

Definition mainWindow_getBounds : M Rectangle := ask_window win_bounds.

Definition set_shown (win : Window) : Window :=
  {| win_options := win_options win; win_bounds := win_bounds win;
     win_maximized := win_maximized win; win_visible := true;
     win_listeners := win_listeners win; win_content := win_content win |}.

Definition set_maximized (area : Rectangle) (win : Window) : Window :=
  {| win_options := win_options win; win_bounds := area;
     win_maximized := true; win_visible := win_visible win;
     win_listeners := win_listeners win; win_content := win_content win |}.

Definition set_listeners (ls : list Registration) (win : Window) : Window :=
  {| win_options := win_options win; win_bounds := win_bounds win;
     win_maximized := win_maximized win; win_visible := win_visible win;
     win_listeners := ls; win_content := win_content win |}.

Definition set_content (c : Content) (win : Window) : Window :=
  {| win_options := win_options win; win_bounds := win_bounds win;
     win_maximized := win_maximized win; win_visible := win_visible win;
     win_listeners := win_listeners win; win_content := Some c |}.

(** [maximize] fills the work area, and shows a window that is hidden. *)
Definition mainWindow_maximize : M unit :=
  with_window EvMaximize (fun w win =>
    set_shown (set_maximized (work_area (host w)) win)).

Definition mainWindow_show : M unit :=
  with_window EvShow (fun _ win => set_shown win).

Definition register (name : string) (once : bool) (l : Listener)
  (win : Window) : Window :=
  set_listeners
    (win_listeners win
     ++ [{| reg_event := name; reg_once := once; reg_listener := l |}])%list
    win.

Definition mainWindow_on (name : string) (l : Listener) : M unit :=
  with_window (EvOn name l) (fun _ win => register name false l win).

Definition mainWindow_once (name : string) (l : Listener) : M unit :=
  with_window (EvOnce name l) (fun _ win => register name true l win).

Definition mainWindow_loadURL (url : string) : M unit :=
  with_window (EvLoadURL url) (fun _ win => set_content (Remote url) win).

Definition mainWindow_loadFile (file : string) : M unit :=
  with_window (EvLoadFile file) (fun _ win => set_content (LocalFile file) win).

(** [electron-store]: a typed key-value store created with defaults;
    [get] answers the stored value, or the default of a key never set. *)
Definition store_get (defaults : JObject) : M JObject :=
  fun w =>
    (Ret (match store_windowState w with Some v => v | None => defaults end),
     emit (EvStoreGet "windowState") w).

Definition store_set (v : JObject) : M unit :=
  fun w =>
    let w' := emit (EvStoreSet "windowState" v) w in
    if store_fault (host w) then (Throw StoreError, w')
    else (Ret tt, set_store (Some v) w').

(* ================================================================== *)
(** ** The program *)

Definition URL : string := "https://monkeytype.com/".
Definition OFFLINE_URL : string := "offline.html".

(** The object literal both [saveWindowState] build from the live
    window. *)
Definition state_of (bounds : Rectangle) (isMaximized : bool) : JObject :=
  [ ("width", JInt (rect_width bounds));
    ("height", JInt (rect_height bounds));
    ("x", JInt (rect_x bounds));
    ("y", JInt (rect_y bounds));
    ("isMaximized", JBool isMaximized) ].

(** The options object of [new BrowserWindow ({...})]. *)
Definition window_options (windowState : JObject) : WindowOptions :=
  {| opt_width := obj_get "width" windowState;
     opt_height := obj_get "height" windowState;
     opt_x := obj_get "x" windowState;
     opt_y := obj_get "y" windowState;
     opt_preload := AppDir "preload.js";
     opt_sandbox := false;
     opt_icon := AppDir "../assets/images/monkeytype.png";
     opt_frame := true;
     opt_autoHideMenuBar := true;
     opt_show := false |}.

(** [createWindow], shared by the two revisions up to the
    [getWindowState] it calls. *)
Definition createWindow_with (getWindowState : M JObject) : M unit :=
  windowState <- getWindowState ;;
  new_BrowserWindow (window_options windowState) ;;
  (if truthy (obj_get "isMaximized" windowState)
   then mainWindow_maximize else ret tt) ;;
  mainWindow_on "resize" OnSaveWindowState ;;
  mainWindow_on "move" OnSaveWindowState ;;
  mainWindow_on "close" OnSaveWindowState ;;
  mainWindow_once "ready-to-show" OnShow ;;
  online <- isOnline ;;
  if online then mainWindow_loadURL URL else mainWindow_loadFile OFFLINE_URL.

(** The host emitting a window event: the listeners registered for it
    run in registration order, those registered with [once] being
    removed first; a listener that throws ends the emission. *)
Fixpoint run_listeners (interp : Listener -> M unit) (ls : list Registration)
  : M unit :=
  match ls with
  | [] => ret tt
  | g :: r => interp (reg_listener g) ;; run_listeners interp r
  end.

Definition listens (name : string) (g : Registration) : bool :=
  reg_event g =? name.

Definition drop_once (name : string) : M unit :=
  fun w =>
    match mainWindow w with
    | None => (Ret tt, w)
    | Some win =>
        (Ret tt,
         set_window
           (Some (set_listeners
                    (filter (fun g => negb (listens name g && reg_once g))
                       (win_listeners win))
                    win))
           w)
    end.

Definition window_event_with (interp : Listener -> M unit) (name : string)
  : M unit :=
  handle <- get_mainWindow ;;
  match handle with
  | None => ret tt
  | Some win =>
      drop_once name ;;
      run_listeners interp (filter (listens name) (win_listeners win))
  end.

(** *** The revision with its own JSON file *)
Module Fs.

Definition CONFIG_FILE : Path := UserData "window-state.json".

Definition defaultWindowState : JObject :=
  [ ("width", JInt 992); ("height", JInt 600); ("isMaximized", JBool false) ].

(** The [return] inside [try] is the [Some] case; falling out of the
    [try] statement, by either branch, reaches the last [return]. *)
Definition getWindowState : M JObject :=
  returned <-
    try_catch
      (present <- fs_existsSync CONFIG_FILE ;;
       if present
       then data <- fs_readFileSync CONFIG_FILE ;;
            parsed <- JSON_parse_or_throw data ;;
            ret (Some (spread_into
                         (spread_into [] (JObj defaultWindowState)) parsed))
       else ret None)
      (fun e => console_error "Failed to load window state:" e ;; ret None) ;;
  match returned with
  | Some state => ret state
  | None => ret defaultWindowState
  end.

Definition saveWindowState : M unit :=
  handle <- get_mainWindow ;;
  match handle with
  | None => ret tt
  | Some _ =>
      isMaximized <- mainWindow_isMaximized ;;
      bounds <- mainWindow_getBounds ;;
      let state := state_of bounds isMaximized in
      try_catch
        (fs_writeFileSync CONFIG_FILE (JSON.stringify (JObj state) 2))
        (fun e => console_error "Failed to save window state:" e)
  end.

Definition createWindow : M unit := createWindow_with getWindowState.

Definition listener (l : Listener) : M unit :=
  match l with
  | OnSaveWindowState => saveWindowState
  | OnShow => mainWindow_show
  end.

Definition window_event : string -> M unit := window_event_with listener.

End Fs.

(** *** The revision of [src/main.ts], on [electron-store] *)
Module Es.

Definition store_defaults : JObject :=
  [ ("width", JInt 992); ("height", JInt 600); ("isMaximized", JBool false) ].

Definition getWindowState : M JObject := store_get store_defaults.

Definition saveWindowState : M unit :=
  handle <- get_mainWindow ;;
  match handle with
  | None => ret tt
  | Some _ =>
      isMaximized <- mainWindow_isMaximized ;;
      bounds <- mainWindow_getBounds ;;
      store_set (state_of bounds isMaximized)
  end.

Definition createWindow : M unit := createWindow_with getWindowState.

Definition listener (l : Listener) : M unit :=
  match l with
  | OnSaveWindowState => saveWindowState
  | OnShow => mainWindow_show
  end.

Definition window_event : string -> M unit := window_event_with listener.

End Es.

(** The revision a statement is about. *)
Inductive Revision : Type :=
| JsonFile
| ElectronStore.

Definition getWindowState_of (r : Revision) : M JObject :=
  match r with
  | JsonFile => Fs.getWindowState
  | ElectronStore => Es.getWindowState
  end.

Definition saveWindowState_of (r : Revision) : M unit :=
  match r with
  | JsonFile => Fs.saveWindowState
  | ElectronStore => Es.saveWindowState
  end.

Definition createWindow_of (r : Revision) : M unit :=
  match r with
  | JsonFile => Fs.createWindow
  | ElectronStore => Es.createWindow
  end.

(* ================================================================== *)
(** ** Notions the statements and proofs use *)

(** *** Texts *)

Fixpoint all_digits (s : string) : bool :=
  match s with
  | EmptyString => true
  | String c r => is_digit c && all_digits r
  end.

Definition nat_text (n : N) : string := NilEmpty.string_of_uint (N.to_uint n).

(** Lexing a prefix: the tokens closed so far and the state reached. *)
Fixpoint lex_run (st : LexState) (s : string) : option (list Token * LexState) :=
  match s with
  | EmptyString => Some ([], st)
  | String c r =>
      match step st c with
      | Some (ts, st') =>
          match lex_run st' r with
          | Some (ts', st'') => Some ((ts ++ ts')%list, st'')
          | None => None
          end
      | None => None
      end
  end.

Definition key_prefix (k : string) : string :=
  String newline ("  " ++ quote k ++ ": ").

Definition state_text (dw dh dx dy dm : string) : string :=
  "{" ++ key_prefix "width" ++ dw ++ "," ++ key_prefix "height" ++ dh ++ ","
  ++ key_prefix "x" ++ dx ++ "," ++ key_prefix "y" ++ dy ++ ","
  ++ key_prefix "isMaximized" ++ dm ++ String newline "}".

(* ------------------------------------------------------------------ *)
(** *** Objects *)

Definition keys (o : JObject) : list string := map fst o.

Definition starts_with_letter (k : string) : bool :=
  match k with
  | String c _ => negb (is_digit c)
  | EmptyString => false
  end.

Definition is_object (v : JValue) : bool :=
  match v with
  | JObj _ => true
  | _ => false
  end.

(* ------------------------------------------------------------------ *)
(** *** Runs of the program, by the state of the world *)

(** The world after some more events; nothing else differs. *)
Definition with_events (w : World) (evs : list Event) : World :=
  {| host := host w; fs := fs w; store_windowState := store_windowState w;
     mainWindow := mainWindow w; trace := (trace w ++ evs)%list |}.

Definition load_message : string := "Failed to load window state:".
Definition save_message : string := "Failed to save window state:".

(** What the loaded record is, by the state of the file. *)
Definition load_result (w : World) : JObject :=
  match fs w Fs.CONFIG_FILE with
  | None => Fs.defaultWindowState
  | Some text =>
      if read_fault (host w) then Fs.defaultWindowState
      else match JSON.parse text with
           | Some v => spread_into Fs.defaultWindowState v
           | None => Fs.defaultWindowState
           end
  end.

Definition load_events (w : World) : list Event :=
  match fs w Fs.CONFIG_FILE with
  | None => [EvExists Fs.CONFIG_FILE]
  | Some text =>
      if read_fault (host w)
      then [EvExists Fs.CONFIG_FILE; EvRead Fs.CONFIG_FILE;
            EvError load_message (IOError "read")]
      else match JSON.parse text with
           | Some v => [EvExists Fs.CONFIG_FILE; EvRead Fs.CONFIG_FILE]
           | None => [EvExists Fs.CONFIG_FILE; EvRead Fs.CONFIG_FILE;
                      EvError load_message SyntaxError]
           end
  end.

Definition state_file_text (win : Window) : string :=
  JSON.stringify (JObj (state_of (win_bounds win) (win_maximized win))) 2.

(** What one call of [Fs.saveWindowState] does: nothing without a window,
    else one write, and one log entry if the write throws. *)
Definition save_events (w : World) : list Event :=
  match mainWindow w with
  | None => []
  | Some win =>
      match write_behaviour (host w) with
      | WriteOk => [EvWrite Fs.CONFIG_FILE (state_file_text win)]
      | WriteFails _ =>
          [EvWrite Fs.CONFIG_FILE (state_file_text win);
           EvError save_message (IOError "write")]
      end
  end.

Definition save_file (w : World) : option string :=
  match mainWindow w with
  | None => fs w Fs.CONFIG_FILE
  | Some win =>
      match write_behaviour (host w) with
      | WriteOk => Some (state_file_text win)
      | WriteFails left_behind => left_behind
      end
  end.

Definition content_source (w : World) : option Content :=
  match mainWindow w with
  | Some win => win_content win
  | None => None
  end.

Definition wired_listeners : list Registration :=
  [ {| reg_event := "resize"; reg_once := false;
       reg_listener := OnSaveWindowState |};
    {| reg_event := "move"; reg_once := false;
       reg_listener := OnSaveWindowState |};
    {| reg_event := "close"; reg_once := false;
       reg_listener := OnSaveWindowState |};
    {| reg_event := "ready-to-show"; reg_once := true;
       reg_listener := OnShow |} ].

Definition wiring_events : list Event :=
  [ EvOn "resize" OnSaveWindowState; EvOn "move" OnSaveWindowState;
    EvOn "close" OnSaveWindowState; EvOnce "ready-to-show" OnShow; EvProbe ].

Definition probe_events (p : Probe) : list Event :=
  match p with
  | ProbeOnline => [EvLoadURL URL]
  | ProbeOffline => [EvLoadFile OFFLINE_URL]
  | ProbeThrows => []
  end.

Definition probe_outcome (p : Probe) : Outcome unit :=
  match p with
  | ProbeThrows => Throw ProbeError
  | _ => Ret tt
  end.

Definition probe_content (p : Probe) : option Content :=
  match p with
  | ProbeOnline => Some (Remote URL)
  | ProbeOffline => Some (LocalFile OFFLINE_URL)
  | ProbeThrows => None
  end.

(** The property the persisted object itself holds under [k], when the
    file can be read and parses to an object. *)
Definition stored_property (k : string) (w : World) : option JValue :=
  match fs w Fs.CONFIG_FILE with
  | Some text =>
      if read_fault (host w) then None
      else match JSON.parse text with
           | Some (JObj o) => obj_get k o
           | _ => None
           end
  | None => None
  end.

(* ------------------------------------------------------------------ *)
(** *** Sample hosts, worlds and files *)

Definition integer_or (v : option JValue) (d : Z) : Z :=
  match v with
  | Some (JNum q) => if (Zpos (Qden q) =? 1)%Z then Qnum q else d
  | _ => d
  end.

Definition plain_layout (o : WindowOptions) : Rectangle :=
  {| rect_x := integer_or (opt_x o) 0; rect_y := integer_or (opt_y o) 0;
     rect_width := integer_or (opt_width o) 800;
     rect_height := integer_or (opt_height o) 600 |}.

Definition sample_host (p : Probe) (wb : WriteBehaviour) (sf : bool) : Host :=
  {| read_fault := false; write_behaviour := wb; store_fault := sf;
     probe := p; layout := plain_layout;
     work_area := {| rect_x := 0; rect_y := 0;
                     rect_width := 1920; rect_height := 1080 |} |}.

Definition sample_world (h : Host) (file : option string)
  (win : option Window) : World :=
  {| host := h;
     fs := fun p => if path_eqb p Fs.CONFIG_FILE then file else None;
     store_windowState := None; mainWindow := win; trace := [] |}.

Definition sample_window : Window :=
  {| win_options := window_options Fs.defaultWindowState;
     win_bounds := {| rect_x := 40; rect_y := 25;
                      rect_width := 1024; rect_height := 768 |};
     win_maximized := false; win_visible := true;
     win_listeners := wired_listeners;
     win_content := Some (Remote URL) |}.

Definition quiet_host : Host := sample_host ProbeOnline WriteOk false.

(** The file holding exactly the object with [isMaximized] true. *)
Definition only_maximized_text : string :=
  "{" ++ quote "isMaximized" ++ ": true}".

(** The file holding a JSON string. *)
Definition string_text : string := quote "ab".

(** The file holding an object with a negative width. *)
Definition negative_width_text : string := "{" ++ quote "width" ++ ": -5}".

(** The file holding text that is not JSON. *)
Definition broken_text : string := "{" ++ quote "width" ++ ": ".

(* ------------------------------------------------------------------ *)
(** *** Predicates of the claims *)

(** Nothing was ever persisted. *)
Definition no_record (r : Revision) (w : World) : Prop :=
  match r with
  | JsonFile => fs w Fs.CONFIG_FILE = None
  | ElectronStore => store_windowState w = None
  end.

Definition is_write (e : Event) : bool :=
  match e with
  | EvWrite _ _ => true
  | EvStoreSet _ _ => true
  | _ => false
  end.

(** The content is invalid, or parses to something that is not an
    object. *)
Definition non_object_content (text : string) : bool :=
  match JSON.parse text with
  | Some (JObj _) => false
  | _ => true
  end.

(** The content parses to a non-empty string or array, whose characters
    or elements the spread copies under their index. *)
Definition indexed_content (text : string) : bool :=
  match JSON.parse text with
  | Some (JStr (String _ _)) => true
  | Some (JArr (_ :: _)) => true
  | _ => false
  end.

(** Only ASCII characters: the strings whose bytes are their UTF-16 code
    units, one for one. *)
Fixpoint ascii_only (s : string) : bool :=
  match s with
  | EmptyString => true
  | String c r => (nat_of_ascii c <? 128)%nat && ascii_only r
  end.

(* ------------------------------------------------------------------ *)
(** *** The number the runtime reads

    A [JNum] holds the exact value of a literal; the runtime holds the
    IEEE double nearest to it, ties to even, which is infinite from
    [2^1024 - 2^970] on.  What follows decides, from the exact value,
    whether that double is a positive integer. *)

(** [2^e <= n/d], for positive [n] and [d]. *)
Definition pow2_le (e n d : Z) : bool :=
  if (0 <=? e)%Z then (d * 2 ^ e <=? n)%Z else (d <=? n * 2 ^ (- e))%Z.

(** The binary exponent of [n/d]: the [e] with [2^e <= n/d < 2^(e+1)]. *)
Definition floor_log2 (n d : Z) : Z :=
  let e0 := (Z.log2 n - Z.log2 d)%Z in
  if pow2_le e0 n d then e0 else (e0 - 1)%Z.

Definition round_half_even (num den : Z) : Z :=
  let fl := (num / den)%Z in
  let r := (num mod den)%Z in
  if (2 * r <? den)%Z then fl
  else if (den <? 2 * r)%Z then (fl + 1)%Z
  else if Z.even fl then fl else (fl + 1)%Z.

(** From here on the nearest double is infinite. *)
Definition double_overflow : Z := (2 ^ 1024 - 2 ^ 970)%Z.

(** The double nearest to [q] is finite, positive and an integer.  Below
    one half it is less than one; with exponent [e] below 52 it is
    [m * 2^(e-52)] for the 53-bit significand [m] rounded to nearest
    even; from [2^52] on every double is an integer. *)
Definition rounds_to_positive_integer (q : Q) : bool :=
  let n := Qnum q in
  let d := Zpos (Qden q) in
  if (n <=? 0)%Z then false
  else if (2 * n <? d)%Z then false
  else if (double_overflow * d <=? n)%Z then false
  else
    let e := floor_log2 n d in
    if (52 <=? e)%Z then true
    else let m := round_half_even (n * 2 ^ (52 - e)) d in
         (m mod 2 ^ (52 - e) =? 0)%Z.

(** The runtime value of the property is a positive integer. *)
Definition is_positive_integer (v : option JValue) : bool :=
  match v with
  | Some (JNum q) => rounds_to_positive_integer q
  | _ => false
  end.

(** The file holding an object whose width is beyond the doubles. *)
Definition infinite_width_text : string := "{" ++ quote "width" ++ ": 1e400}".

(** The file holding an array. *)
Definition array_text : string := "[10, 20]".

(** The persisted object has no such property, or a positive integer. *)
Definition dimension_ok (v : option JValue) : bool :=
  match v with
  | None => true
  | Some _ => is_positive_integer v
  end.

Definition stored_dimensions_ok (w : World) : bool :=
  dimension_ok (stored_property "width" w)
  && dimension_ok (stored_property "height" w).

(* ================================================================== *)
(** ** The host acting on the window, and what a run adds *)

Definition window_event_of (r : Revision) : string -> M unit :=
  match r with
  | JsonFile => Fs.window_event
  | ElectronStore => Es.window_event
  end.

Definition set_bounds (b : Rectangle) (win : Window) : Window :=
  {| win_options := win_options win; win_bounds := b;
     win_maximized := win_maximized win; win_visible := win_visible win;
     win_listeners := win_listeners win; win_content := win_content win |}.

(** The user drags or resizes the window; the host then emits the event. *)
Definition user_sets_bounds (b : Rectangle) : M unit :=
  fun w =>
    match mainWindow w with
    | None => (Ret tt, w)
    | Some win => (Ret tt, set_window (Some (set_bounds b win)) w)
    end.

(** The events a run added to the trace. *)
Definition new_events (before after : World) : list Event :=
  skipn (List.length (trace before)) (trace after).

Definition is_error_event (e : Event) : bool :=
  match e with
  | EvError _ _ => true
  | _ => false
  end.

Definition window_visible (w : World) : bool :=
  match mainWindow w with
  | Some win => win_visible win
  | None => false
  end.

Definition window_listeners (w : World) : list Registration :=
  match mainWindow w with
  | Some win => win_listeners win
  | None => []
  end.

(** The file is there and reading or parsing it throws. *)
Definition load_fails (w : World) : bool :=
  match fs w Fs.CONFIG_FILE with
  | None => false
  | Some text =>
      read_fault (host w)
      || match JSON.parse text with
         | Some _ => false
         | None => true
         end
  end.

(** A host whose reads fail. *)
Definition unreadable_host : Host :=
  {| read_fault := true; write_behaviour := WriteOk; store_fault := false;
     probe := ProbeOnline; layout := plain_layout;
     work_area := {| rect_x := 0; rect_y := 0;
                     rect_width := 1920; rect_height := 1080 |} |}.

Definition listener_of (r : Revision) : Listener -> M unit :=
  match r with
  | JsonFile => Fs.listener
  | ElectronStore => Es.listener
  end.

(** The window [createWindow] leaves behind, by the loaded record. *)
Definition created_window (h : Host) (st : JObject) : Window :=
  let maximize := truthy (obj_get "isMaximized" st) in
  {| win_options := window_options st;
     win_bounds := if maximize then work_area h else layout h (window_options st);
     win_maximized := maximize;
     win_visible := maximize;
     win_listeners := wired_listeners;
     win_content := probe_content (probe h) |}.

Definition registered_on : list Registration :=
  [ {| reg_event := "resize"; reg_once := false;
       reg_listener := OnSaveWindowState |};
    {| reg_event := "move"; reg_once := false;
       reg_listener := OnSaveWindowState |};
    {| reg_event := "close"; reg_once := false;
       reg_listener := OnSaveWindowState |} ].

(** What no listener of this program changes in a window: its content
    and the options it was created with. *)
Definition page_of (w : World) : option (option Content * WindowOptions) :=
  match mainWindow w with
  | Some win => Some (win_content win, win_options win)
  | None => None
  end.

(* ================================================================== *)
(** ** The rest of the shell: requests, shortcuts, tray, startup *)

(* ------------------------------------------------------------------ *)
(** *** Outbound requests and permissions *)

Definition USER_AGENT : string :=
  "Mozilla/5.0 (Windows NT 10.0; Win64; x64) AppleWebKit/537.36 (KHTML, like Gecko) Chrome/108.0.0.0 Safari/537.36".

Definition Headers : Type := list (string * string).

Record HeadersResponse : Type := {
  cancel : bool;
  requestHeaders : Headers
}.

Definition header (name : string) (h : Headers) : option string :=
  alist_get String.eqb name h.

(** The listener given to [webRequest.onBeforeSendHeaders]: it assigns
    the property [User-Agent] of the headers and calls back with them. *)
Definition onBeforeSendHeaders (details : Headers) : HeadersResponse :=
  {| cancel := false;
     requestHeaders := alist_set String.eqb "User-Agent" USER_AGENT details |}.

(** The handler given to [setPermissionRequestHandler]: what it passes
    to its callback. *)
Definition permissionRequestHandler (permission : string) : bool :=
  if permission =? "notifications" then true else false.

(* ------------------------------------------------------------------ *)
(** *** The [before-input-event] listener of [registerShortcuts]

    The page is what the listener reads and sets in the web contents;
    the zoom level, a double in the runtime, is an exact rational here,
    and the full-screen flag read is the one last set. *)

Record Input : Type := {
  in_key : string;
  in_meta : bool;
  in_control : bool;
  in_shift : bool
}.

Inductive WebCall : Type :=
| Reload
| ReloadIgnoringCache
| SetFullScreen (flag : bool)
| SetZoomLevel (level : Q)
| ToggleDevTools
| PreventDefault.

Record Page : Type := {
  fullScreen : bool;
  zoomLevel : Q;
  devTools : bool;
  web_calls : list WebCall
}.

Definition called (c : WebCall) (pg : Page) : Page :=
  {| fullScreen := fullScreen pg; zoomLevel := zoomLevel pg;
     devTools := devTools pg; web_calls := (web_calls pg ++ [c])%list |}.

Definition reload (pg : Page) : Page := called Reload pg.

Definition reloadIgnoringCache (pg : Page) : Page :=
  called ReloadIgnoringCache pg.

Definition setFullScreen (flag : bool) (pg : Page) : Page :=
  {| fullScreen := flag; zoomLevel := zoomLevel pg; devTools := devTools pg;
     web_calls := (web_calls pg ++ [SetFullScreen flag])%list |}.

Definition setZoomLevel (level : Q) (pg : Page) : Page :=
  {| fullScreen := fullScreen pg; zoomLevel := level; devTools := devTools pg;
     web_calls := (web_calls pg ++ [SetZoomLevel level])%list |}.

Definition toggleDevTools (pg : Page) : Page :=
  {| fullScreen := fullScreen pg; zoomLevel := zoomLevel pg;
     devTools := negb (devTools pg);
     web_calls := (web_calls pg ++ [ToggleDevTools])%list |}.

Definition preventDefault (pg : Page) : Page := called PreventDefault pg.

(** [input.meta || input.control]. *)
Definition command_held (input : Input) : bool :=
  in_meta input || in_control input.

Definition before_input_event (input : Input) (pg : Page) : Page :=
  let k := in_key input in
  let pg :=
    if (k =? "r") && command_held input && negb (in_shift input)
    then preventDefault (reload pg) else pg in
  let pg :=
    if (k =? "R") && command_held input && in_shift input
    then preventDefault (reloadIgnoringCache pg) else pg in
  let pg :=
    if (k =? "F11") || ((k =? "f") && command_held input && in_shift input)
    then preventDefault (setFullScreen (negb (fullScreen pg)) pg) else pg in
  let pg :=
    if (k =? "=") && command_held input
    then preventDefault (setZoomLevel (zoomLevel pg + (1 # 2))%Q pg) else pg in
  let pg :=
    if (k =? "-") && command_held input
    then preventDefault (setZoomLevel (zoomLevel pg - (1 # 2))%Q pg) else pg in
  let pg :=
    if (k =? "0") && command_held input
    then preventDefault (setZoomLevel 0%Q pg) else pg in
  if (k =? "i") && command_held input && in_shift input
  then preventDefault (toggleDevTools pg) else pg.

Definition sample_page : Page :=
  {| fullScreen := false; zoomLevel := 0%Q; devTools := false; web_calls := [] |}.

(* ------------------------------------------------------------------ *)
(** *** The shell around the window: tray, shortcuts, handlers *)

Inductive MenuAction : Type :=
| ShowApp
| QuitApp.

Record MenuItem : Type := {
  label : string;
  click : MenuAction
}.

Record TrayIcon : Type := {
  tray_image : Path;
  tray_image_width : nat;
  tray_image_height : nat;
  toolTip : string;
  contextMenu : list MenuItem
}.

(** What the shell asks of the application host, in the order asked. *)
Inductive ShellCall : Type :=
| NewTray (t : TrayIcon)
| RegisterGlobalShortcut (accelerator : string)
| OnBeforeInputEvent
| ShowNotification (title body : string)
| SetPermissionRequestHandler (h : string -> bool)
| OnBeforeSendHeaders (f : Headers -> HeadersResponse)
| AppOn (event : string)
| Hide
| Focus
| AppQuit.

Record Shell : Type := {
  world : World;
  notifications_supported : bool;
  shell_calls : list ShellCall
}.

Definition SM (A : Type) : Type := Shell -> Outcome A * Shell.

Definition sret {A} (a : A) : SM A := fun s => (Ret a, s).

Definition sthrow {A} (e : Error) : SM A := fun s => (Throw e, s).

Definition sbind {A B} (m : SM A) (k : A -> SM B) : SM B :=
  fun s =>
    match m s with
    | (Ret a, s') => k a s'
    | (Throw e, s') => (Throw e, s')
    end.

Declare Scope shell_scope.
Delimit Scope shell_scope with shell.
Notation "x <- c1 ;; c2" := (sbind c1 (fun x => c2))
  (at level 61, c1 at next level, right associativity) : shell_scope.
Notation "c1 ;; c2" := (sbind c1 (fun _ => c2))
  (at level 61, right associativity) : shell_scope.

Definition set_world (w : World) (s : Shell) : Shell :=
  {| world := w; notifications_supported := notifications_supported s;
     shell_calls := shell_calls s |}.

(** A computation on the window and its files, run inside the shell. *)
Definition lift {A} (m : M A) : SM A :=
  fun s => let (o, w) := m (world s) in (o, set_world w s).

Definition shell_call (c : ShellCall) : SM unit :=
  fun s =>
    (Ret tt,
     {| world := world s; notifications_supported := notifications_supported s;
        shell_calls := (shell_calls s ++ [c])%list |}).

(** Calling an [async] function: it runs up to its first [await] and
    hands back a promise; an exception on the way rejects the promise
    and is not thrown to the caller. *)
Definition call_async {A} (m : SM A) : SM (Outcome A) :=
  fun s => let (o, s') := m s in (Ret o, s').





Definition TRAY_MENU : list MenuItem :=
  [ {| label := "Show App"; click := ShowApp |};
    {| label := "Quit"; click := QuitApp |} ].

Definition createTray : SM unit :=
  shell_call
    (NewTray {| tray_image := AppDir "../assets/images/monkeytype.png";
                tray_image_width := 16; tray_image_height := 16;
                toolTip := "MonkeyType Desktop";
                contextMenu := TRAY_MENU |}).

(** The [click] of a menu item. *)
Definition menu_click (a : MenuAction) : SM unit :=
  match a with
  | ShowApp => lift mainWindow_show
  | QuitApp => shell_call AppQuit
  end.


(** [registerShortcuts]; reading [mainWindow.webContents] throws on an
    unset handle. *)
Definition registerShortcuts : SM unit :=
  (shell_call (RegisterGlobalShortcut "CommandOrControl+Shift+M") ;;
   handle <- lift get_mainWindow ;;
   match handle with
   | None => sthrow TypeError
   | Some _ => shell_call OnBeforeInputEvent
   end)%shell.

Definition scheduleMorningNotification : SM unit :=
  fun s =>
    if notifications_supported s
    then shell_call
           (ShowNotification "MonkeyType App"
              "MonkeyType Desktop is running in the background.") s
    else (Ret tt, s).

(** What both revisions do last in their ready callback. *)
Definition install_session_handlers : SM unit :=
  (shell_call (SetPermissionRequestHandler permissionRequestHandler) ;;
   shell_call (OnBeforeSendHeaders onBeforeSendHeaders) ;;
   shell_call (AppOn "activate"))%shell.

(** [createWindow] up to its [await], and after it: the probe is
    started by the call and answers later. *)
Definition isOnline_called : M unit :=
  fun w => (Ret tt, emit EvProbe w).

Definition isOnline_settled : M bool :=
  fun w =>
    match probe (host w) with
    | ProbeOnline => (Ret true, w)
    | ProbeOffline => (Ret false, w)
    | ProbeThrows => (Throw ProbeError, w)
    end.

Definition createWindow_until_await (getWindowState : M JObject) : M unit :=
  windowState <- getWindowState ;;
  new_BrowserWindow (window_options windowState) ;;
  (if truthy (obj_get "isMaximized" windowState)
   then mainWindow_maximize else ret tt) ;;
  mainWindow_on "resize" OnSaveWindowState ;;
  mainWindow_on "move" OnSaveWindowState ;;
  mainWindow_on "close" OnSaveWindowState ;;
  mainWindow_once "ready-to-show" OnShow ;;
  isOnline_called.

Definition createWindow_after_await : M unit :=
  online <- isOnline_settled ;;
  if online then mainWindow_loadURL URL else mainWindow_loadFile OFFLINE_URL.

(** The ready callback of the revision with its own JSON file: an
    [async] function that awaits [createWindow] before anything else. *)
Definition whenReady_Fs : SM unit :=
  (lift Fs.createWindow ;;
   createTray ;;
   registerShortcuts ;;
   scheduleMorningNotification ;;
   install_session_handlers)%shell.

(** The ready callback of [src/main.ts]: it calls [createWindow] without
    awaiting it, so the rest runs while the probe is pending; the value
    is the promise [createWindow] handed back. *)
Definition whenReady_Es : SM (Outcome unit) :=
  (pending <- call_async (lift (createWindow_until_await Es.getWindowState)) ;;
   createTray ;;
   scheduleMorningNotification ;;
   install_session_handlers ;;
   sret pending)%shell.

(** The probe answers: [createWindow] resumes after its [await], unless
    it was rejected before. *)
Definition probe_settles (pending : Outcome unit) : SM unit :=
  match pending with
  | Ret _ => lift createWindow_after_await
  | Throw e => sthrow e
  end.

Definition sample_shell (w : World) : Shell :=
  {| world := w; notifications_supported := true; shell_calls := [] |}.

Definition startup_calls (supported : bool) (with_shortcuts : bool)
  : list ShellCall :=
  ([ NewTray {| tray_image := AppDir "../assets/images/monkeytype.png";
                tray_image_width := 16; tray_image_height := 16;
                toolTip := "MonkeyType Desktop";
                contextMenu := TRAY_MENU |} ]
   ++ (if with_shortcuts
       then [ RegisterGlobalShortcut "CommandOrControl+Shift+M";
              OnBeforeInputEvent ]
       else [])
   ++ (if supported
       then [ ShowNotification "MonkeyType App"
                "MonkeyType Desktop is running in the background." ]
       else [])
   ++ [ SetPermissionRequestHandler permissionRequestHandler;
        OnBeforeSendHeaders onBeforeSendHeaders;
        AppOn "activate" ])%list.

(* ================================================================== *)
(** ** Facts about the runtime model *)

(** *** Strings and digits *)

Lemma append_assoc (a b c : string) : (a ++ b) ++ c = a ++ (b ++ c).
Proof. induction a as [|x a IH]; simpl; [reflexivity | now rewrite IH]. Qed.

Lemma append_nil_r (a : string) : a ++ EmptyString = a.
Proof. induction a as [|x a IH]; simpl; [reflexivity | now rewrite IH]. Qed.

Lemma all_digits_uint (u : Decimal.uint) :
  all_digits (NilEmpty.string_of_uint u) = true.
Proof. induction u; simpl; auto. Qed.

Lemma span_digits_all (s : string) :
  all_digits s = true -> span_digits s = (s, EmptyString).
Proof.
  induction s as [|c r IH]; simpl; [reflexivity|].
  intros H. apply andb_prop in H. destruct H as [Hc Hr].
  rewrite Hc, (IH Hr). reflexivity.
Qed.

Lemma digit_is_numchar (c : ascii) : is_digit c = true -> is_numchar c = true.
Proof. unfold is_numchar. now intros ->. Qed.

Lemma digit_not_minus (c : ascii) : is_digit c = true -> (c =? "-")%char = false.
Proof.
  intros H. destruct (Ascii.eqb_spec c "-"%char) as [->|]; [discriminate H | reflexivity].
Qed.

(** A digit or a minus sign opens a number literal. *)
Lemma idle_step_numstart (c : ascii) :
  is_digit c || (c =? "-")%char = true ->
  idle_step c = Some ([], LNum (str1 c)).
Proof.
  destruct c as [[] [] [] [] [] [] [] []]; try discriminate; reflexivity.
Qed.

Lemma lex_cons (st : LexState) (c : ascii) (r : string) :
  lex st (String c r) =
  match step st c with
  | Some (ts, st') => option_map (app ts) (lex st' r)
  | None => None
  end.
Proof. reflexivity. Qed.

Lemma option_map_id {A} (o : option A) : option_map (fun m => m) o = o.
Proof. now destruct o. Qed.

Lemma option_map_app_nil {A} (o : option (list A)) : option_map (app []) o = o.
Proof. now destruct o. Qed.

Lemma option_map_app_app {A} (a b : list A) (o : option (list A)) :
  option_map (app a) (option_map (app b) o) = option_map (app (a ++ b)%list) o.
Proof. destruct o; simpl; [now rewrite app_assoc | reflexivity]. Qed.

Lemma lex_num_digits (ds : string) :
  forall (lit : string) (c : ascii) (r : string),
    all_digits ds = true ->
    is_numchar c = false ->
    lex (LNum lit) (ds ++ String c r) =
    match then_idle (close_num (lit ++ ds)) c with
    | Some (ts, st') => option_map (app ts) (lex st' r)
    | None => None
    end.
Proof.
  induction ds as [|d ds IH]; intros lit c r Hds Hc.
  - simpl. rewrite Hc, append_nil_r. reflexivity.
  - simpl in Hds. apply andb_prop in Hds. destruct Hds as [Hd Hds].
    cbn [append]. rewrite lex_cons. cbn [step].
    rewrite (digit_is_numchar _ Hd), option_map_app_nil.
    rewrite (IH (snoc lit d) c r Hds Hc).
    unfold snoc, str1. rewrite append_assoc. reflexivity.
Qed.

(** *** The text of an integer reads back as that integer *)

Lemma to_uint_unorm (n : N) : Decimal.unorm (N.to_uint n) = N.to_uint n.
Proof.
  pose proof (DecimalN.Unsigned.to_of (N.to_uint n)) as H.
  rewrite DecimalN.Unsigned.of_to in H. now symmetry.
Qed.

Lemma nat_text_head (n : N) :
  exists c r, nat_text n = String c r /\ is_digit c = true /\ all_digits r = true.
Proof.
  pose proof (all_digits_uint (N.to_uint n)) as Hall.
  pose proof (to_uint_unorm n) as Hn.
  unfold nat_text. destruct (N.to_uint n) eqn:E;
    try (simpl in *; eexists _, _; split; [reflexivity | split; [reflexivity | exact Hall]]).
  discriminate Hn.
Qed.

Lemma dec_of_Z_cases (z : Z) :
  dec_of_Z z =
  if (z <? 0)%Z then String "-" (nat_text (Z.abs_N z)) else nat_text (Z.abs_N z).
Proof. destruct z; reflexivity. Qed.

Lemma int_text_value_nat (n : N) : int_text_value (nat_text n) = Some (Z.of_N n).
Proof.
  unfold int_text_value, nat_text.
  rewrite NilEmpty.usu, to_uint_unorm, String.eqb_refl.
  unfold Z.of_uint. now rewrite DecimalN.Unsigned.of_to.
Qed.

Lemma unsigned_literal_nat (neg : bool) (n : N) :
  unsigned_literal neg (nat_text n) =
  Some (inject_Z (if neg then - Z.of_N n else Z.of_N n)).
Proof.
  unfold unsigned_literal.
  rewrite (span_digits_all (nat_text n)) by apply all_digits_uint.
  rewrite int_text_value_nat.
  cbn [fraction_of exponent_of digits_value String.length Z.of_nat].
  unfold scale10. cbn [Z.sub Z.opp Z.add Z.leb Z.compare].
  do 2 f_equal. rewrite Z.pow_0_r. destruct neg; lia.
Qed.

Lemma number_of_literal_dec (z : Z) :
  number_of_literal (dec_of_Z z) = Some (inject_Z z).
Proof.
  rewrite dec_of_Z_cases. unfold number_of_literal.
  destruct (z <? 0)%Z eqn:Hz.
  - cbn [split_sign]. change (("-" =? "-")%char) with true. cbv iota.
    rewrite unsigned_literal_nat. do 2 f_equal. 
    apply Z.ltb_lt in Hz. rewrite N2Z.inj_abs_N. lia.
  - destruct (nat_text_head (Z.abs_N z)) as (c & r & E & Hc & _).
    unfold split_sign. rewrite E, (digit_not_minus _ Hc), <- E.
    rewrite unsigned_literal_nat. do 2 f_equal.
    apply Z.ltb_ge in Hz. rewrite N2Z.inj_abs_N. lia.
Qed.

(** Such a text, followed by a comma, lexes as one number token. *)
Lemma lex_dec_comma (z : Z) (r : string) :
  lex LIdle (dec_of_Z z ++ String "," r) =
  option_map (app [TNumber (inject_Z z); TComma]) (lex LIdle r).
Proof.
  pose proof (number_of_literal_dec z) as Hnum.
  assert (exists c ds, dec_of_Z z = String c ds
                       /\ (is_digit c || (c =? "-")%char) = true
                       /\ all_digits ds = true) as (c & ds & E & Hc & Hds).
  { rewrite dec_of_Z_cases.
    destruct (nat_text_head (Z.abs_N z)) as (c & ds & E & Hc & Hds).
    destruct (z <? 0)%Z.
    - exists "-"%char, (nat_text (Z.abs_N z)). repeat split.
      unfold nat_text. apply all_digits_uint.
    - exists c, ds. rewrite Hc. auto. }
  rewrite E in *. cbn [append]. rewrite lex_cons. cbn [step].
  rewrite (idle_step_numstart _ Hc), option_map_app_nil.
  rewrite lex_num_digits by (auto; reflexivity).
  unfold str1. cbn [append]. unfold close_num. rewrite Hnum.
  reflexivity.
Qed.

(** *** The file [saveWindowState] writes reads back as the state *)

Lemma lex_app (a : string) :
  forall (st : LexState) (b : string),
    lex st (a ++ b) =
    match lex_run st a with
    | Some (ts, st') => option_map (app ts) (lex st' b)
    | None => None
    end.
Proof.
  induction a as [|c a IH]; intros st b.
  - cbn [append lex_run]. now rewrite option_map_app_nil.
  - cbn [append lex_run]. rewrite lex_cons.
    destruct (step st c) as [[ts st']|]; [|reflexivity].
    rewrite IH. destruct (lex_run st' a) as [[ts' st'']|]; [|reflexivity].
    now rewrite option_map_app_app.
Qed.

Lemma stringify_state_of (b : Rectangle) (m : bool) :
  JSON.stringify (JObj (state_of b m)) 2 =
  state_text (dec_of_Z (rect_width b)) (dec_of_Z (rect_height b))
    (dec_of_Z (rect_x b)) (dec_of_Z (rect_y b))
    (if m then "true" else "false").
Proof.
  unfold JSON.stringify, state_of, state_text, key_prefix, JInt.
  cbn [stringify_at spaces line_break colon append number_text Qnum Qden
       inject_Z Z.eqb Pos.eqb].
  generalize (dec_of_Z (rect_width b)), (dec_of_Z (rect_height b)),
    (dec_of_Z (rect_x b)), (dec_of_Z (rect_y b)).
  intros dw dh dx dy.
  destruct m; cbn; repeat (rewrite append_assoc; cbn); reflexivity.
Qed.

Lemma lex_number_member (k : string) (z : Z) (r : string) (ts : list Token) :
  lex_run LIdle (key_prefix k) = Some (ts, LIdle) ->
  lex LIdle (key_prefix k ++ dec_of_Z z ++ "," ++ r) =
  option_map (app (ts ++ [TNumber (inject_Z z); TComma])%list) (lex LIdle r).
Proof.
  intros Hk. rewrite lex_app, Hk.
  change ("," ++ r) with (String "," r).
  now rewrite lex_dec_comma, option_map_app_app.
Qed.

Lemma lex_state_text (w h x y : Z) (m : bool) :
  lex LIdle (state_text (dec_of_Z w) (dec_of_Z h) (dec_of_Z x) (dec_of_Z y)
               (if m then "true" else "false")) =
  Some [ TLBrace;
         TString "width"; TColon; TNumber (inject_Z w); TComma;
         TString "height"; TColon; TNumber (inject_Z h); TComma;
         TString "x"; TColon; TNumber (inject_Z x); TComma;
         TString "y"; TColon; TNumber (inject_Z y); TComma;
         TString "isMaximized"; TColon; (if m then TTrue else TFalse);
         TRBrace ].
Proof.
  unfold state_text.
  rewrite lex_app.
  replace (lex_run LIdle "{") with (Some ([TLBrace], LIdle)) by reflexivity.
  rewrite (lex_number_member "width" w _ [TString "width"; TColon])
    by (vm_compute; reflexivity).
  rewrite (lex_number_member "height" h _ [TString "height"; TColon])
    by (vm_compute; reflexivity).
  rewrite (lex_number_member "x" x _ [TString "x"; TColon])
    by (vm_compute; reflexivity).
  rewrite (lex_number_member "y" y _ [TString "y"; TColon])
    by (vm_compute; reflexivity).
  replace (lex LIdle (key_prefix "isMaximized"
                        ++ (if m then "true" else "false") ++ String newline "}"))
    with (Some [TString "isMaximized"; TColon; if m then TTrue else TFalse; TRBrace])
    by (destruct m; vm_compute; reflexivity).
  reflexivity.
Qed.

Lemma JSON_parse_state_of (b : Rectangle) (m : bool) :
  JSON.parse (JSON.stringify (JObj (state_of b m)) 2) = Some (JObj (state_of b m)).
Proof.
  rewrite stringify_state_of. unfold JSON.parse.
  rewrite lex_state_text. destruct m; reflexivity.
Qed.

(** *** Objects: lookup after assignment and spread *)

Lemma obj_get_set_same (k : string) (v : JValue) (o : JObject) :
  obj_get k (obj_set k v o) = Some v.
Proof.
  unfold obj_get, obj_set.
  induction o as [|[k' v'] o IH]; cbn [alist_set alist_get].
  - now rewrite String.eqb_refl.
  - destruct (k =? k') eqn:E; cbn [alist_get]; rewrite E; auto.
Qed.

Lemma obj_get_set_other (k k' : string) (v : JValue) (o : JObject) :
  k <> k' -> obj_get k (obj_set k' v o) = obj_get k o.
Proof.
  intros Hne. unfold obj_get, obj_set.
  induction o as [|[k0 v0] o IH]; cbn [alist_set alist_get].
  - apply String.eqb_neq in Hne. now rewrite Hne.
  - destruct (k' =? k0) eqn:E; cbn [alist_get].
    + apply String.eqb_eq in E. subst k0.
      apply String.eqb_neq in Hne. now rewrite Hne.
    + now rewrite IH.
Qed.

Lemma obj_get_absent (k : string) (o : JObject) :
  ~ In k (keys o) -> obj_get k o = None.
Proof.
  unfold obj_get, keys.
  induction o as [|[k' v'] o IH]; cbn [alist_get map fst]; [reflexivity|].
  intros Hni. destruct (String.eqb_spec k k') as [->|Hne].
  - exfalso. apply Hni. now left.
  - apply IH. intros Hin. apply Hni. now right.
Qed.

Lemma keys_obj_set (k : string) (v : JValue) (o : JObject) :
  keys (obj_set k v o) = if in_dec string_dec k (keys o) then keys o else (keys o ++ [k])%list.
Proof.
  unfold keys, obj_set.
  induction o as [|[k' v'] o IH]; cbn [alist_set map fst app].
  - destruct (in_dec string_dec k []) as [[]|]; reflexivity.
  - destruct (String.eqb_spec k k') as [->|Hne]; cbn [map fst].
    + destruct (in_dec string_dec k' (k' :: map fst o)) as [|Hni]; [reflexivity|].
      exfalso. apply Hni. now left.
    + rewrite IH.
      destruct (in_dec string_dec k (map fst o)) as [Hin|Hni];
        destruct (in_dec string_dec k (k' :: map fst o)) as [Hin'|Hni'];
        try reflexivity.
      * exfalso. apply Hni'. now right.
      * destruct Hin' as [E|Hin']; [now subst | contradiction].
Qed.

Lemma NoDup_keys_obj_set (k : string) (v : JValue) (o : JObject) :
  NoDup (keys o) -> NoDup (keys (obj_set k v o)).
Proof.
  intros Hnd. rewrite keys_obj_set.
  destruct (in_dec string_dec k (keys o)) as [|Hni]; [assumption|].
  apply NoDup_app; [assumption | repeat constructor; intros [] | ].
  intros a Ha [<-|[]]. contradiction.
Qed.

(** Assigning the properties of [source] one after the other: a key the
    source lacks keeps the value of the target. *)
Lemma obj_get_assign_absent (k : string) (source : JObject) :
  forall target : JObject,
    ~ In k (keys source) ->
    obj_get k (assign_all target source) = obj_get k target.
Proof.
  unfold assign_all.
  induction source as [|[k' v'] source IH]; intros target Hni; cbn [fold_left].
  - reflexivity.
  - cbn [fst snd]. rewrite IH.
    + apply obj_get_set_other. intros ->. apply Hni. now left.
    + intros Hin. apply Hni. now right.
Qed.

Lemma obj_get_assign (k : string) (source : JObject) :
  forall target : JObject,
    NoDup (keys source) ->
    obj_get k (assign_all target source) =
    match obj_get k source with
    | Some v => Some v
    | None => obj_get k target
    end.
Proof.
  unfold assign_all.
  induction source as [|[k' v'] source IH]; intros target Hnd; cbn [fold_left].
  - reflexivity.
  - cbn [fst snd]. cbn [keys map fst] in Hnd.
    apply NoDup_cons_iff in Hnd. destruct Hnd as [Hni Hnd].
    rewrite (IH _ Hnd). unfold obj_get at 3. cbn [alist_get].
    fold (obj_get k source).
    destruct (String.eqb_spec k k') as [->|Hne].
    + rewrite (obj_get_absent k' source Hni). apply obj_get_set_same.
    + destruct (obj_get k source); [reflexivity|].
      now apply obj_get_set_other.
Qed.

(** Index keys are made of digits, so they are none of the names of a
    window state. *)
Lemma index_key_digits (i : nat) : all_digits (index_key i) = true.
Proof. apply all_digits_uint. Qed.

Lemma letter_not_index (k : string) (i : nat) :
  starts_with_letter k = true -> index_key i <> k.
Proof.
  intros Hk E. pose proof (index_key_digits i) as Hd. rewrite E in Hd.
  destruct k as [|c r]; [discriminate Hk|].
  cbn in Hk, Hd. destruct (is_digit c); discriminate.
Qed.

Lemma chars_props_keys (k : string) (s : string) :
  starts_with_letter k = true -> forall i, ~ In k (keys (chars_props i s)).
Proof.
  intros Hk. induction s as [|c r IH]; intros i; cbn; [tauto|].
  intros [E|Hin]; [now apply (letter_not_index k i) | now apply (IH (S i))].
Qed.

Lemma items_props_keys (k : string) (l : list JValue) :
  starts_with_letter k = true -> forall i, ~ In k (keys (items_props i l)).
Proof.
  intros Hk. induction l as [|x r IH]; intros i; cbn; [tauto|].
  intros [E|Hin]; [now apply (letter_not_index k i) | now apply (IH (S i))].
Qed.

(** Spreading a value that is not an object leaves every property with
    a name untouched. *)
Lemma spread_non_object (target : JObject) (v : JValue) (k : string) :
  is_object v = false ->
  starts_with_letter k = true ->
  obj_get k (spread_into target v) = obj_get k target.
Proof.
  intros Hv Hk. unfold spread_into. apply obj_get_assign_absent.
  destruct v; cbn [own_props keys map]; try tauto; try discriminate Hv.
  - now apply chars_props_keys.
  - now apply items_props_keys.
Qed.

(** *** The parser never yields an object with a repeated key *)

Lemma parse_distinct_keys (fuel : nat) :
  (forall ts o r, parse_value fuel ts = Some (JObj o, r) -> NoDup (keys o))
  /\ (forall ts acc o r, parse_elems fuel ts acc = Some (JObj o, r) -> False)
  /\ (forall ts acc o r, parse_members fuel ts acc = Some (JObj o, r) ->
        NoDup (keys acc) -> NoDup (keys o)).
Proof.
  induction fuel as [|f (IHv & IHe & IHm)]; [repeat split; discriminate|].
  repeat split.
  - intros ts o r H. cbn [parse_value] in H.
    destruct ts as [|t ts]; [discriminate|].
    destruct t; try discriminate.
    + destruct ts as [|t' ts'].
      * eapply IHm; [exact H | constructor].
      * destruct t'; try (eapply IHm; [exact H | constructor]).
        injection H as <- _. constructor.
    + destruct ts as [|t' ts'].
      * exfalso. eapply IHe. exact H.
      * destruct t'; try (exfalso; eapply IHe; exact H). discriminate.
  - intros ts acc o r H. cbn [parse_elems] in H.
    destruct (parse_value f ts) as [[v [|t rest]]|]; try discriminate.
    destruct t; try discriminate.
    eapply IHe. exact H.
  - intros ts acc o r H Hacc. cbn [parse_members] in H.
    destruct ts as [|t ts]; [discriminate|].
    destruct t; try discriminate.
    destruct ts as [|t ts]; [discriminate|].
    destruct t; try discriminate.
    destruct (parse_value f ts) as [[v [|t rest]]|]; try discriminate.
    destruct t; try discriminate.
    + injection H as <- _. now apply NoDup_keys_obj_set.
    + eapply IHm; [exact H|]. now apply NoDup_keys_obj_set.
Qed.

Lemma JSON_parse_distinct_keys (text : string) (o : JObject) :
  JSON.parse text = Some (JObj o) -> NoDup (keys o).
Proof.
  unfold JSON.parse. intros H.
  destruct (lex LIdle text) as [ts|]; [|discriminate].
  destruct (parse_value (2 * List.length ts + 1) ts) as [[v [|t rest]]|] eqn:E;
    try discriminate.
  injection H as ->.
  eapply (proj1 (parse_distinct_keys _)). exact E.
Qed.

(* ================================================================== *)
(** ** Facts about the program *)

Lemma getWindowState_run (w : World) :
  Fs.getWindowState w = (Ret (load_result w), with_events w (load_events w)).
Proof.
  unfold Fs.getWindowState, load_result, load_events, bind, try_catch,
    fs_existsSync, fs_readFileSync, JSON_parse_or_throw, console_error, ret,
    throw, with_events, emit.
  destruct (fs w Fs.CONFIG_FILE) as [text|] eqn:Ef; cbn; [|reflexivity].
  destruct (read_fault (host w)) eqn:Er; [|destruct (JSON.parse text) eqn:Ep];
    repeat (progress (cbn; rewrite ?Ef, ?Er, ?Ep));
    now rewrite <- !app_assoc.
Qed.

Lemma saveWindowState_run (w : World) :
  exists w',
    Fs.saveWindowState w = (Ret tt, w')
    /\ host w' = host w
    /\ mainWindow w' = mainWindow w
    /\ store_windowState w' = store_windowState w
    /\ trace w' = (trace w ++ save_events w)%list
    /\ fs w' Fs.CONFIG_FILE = save_file w
    /\ (forall p, p <> Fs.CONFIG_FILE -> fs w' p = fs w p).
Proof.
  unfold Fs.saveWindowState, save_events, save_file, bind, get_mainWindow,
    mainWindow_isMaximized, mainWindow_getBounds, ask_window, try_catch,
    fs_writeFileSync, console_error, ret, state_file_text.
  destruct (mainWindow w) as [win|] eqn:Ew; cbn.
  - rewrite Ew. cbn. rewrite Ew. cbn.
    destruct (write_behaviour (host w)) eqn:Eb; cbn;
      eexists; (split; [reflexivity|]); cbn; rewrite ?Ew, <- ?app_assoc;
      repeat split; auto;
      intros [n|n] Hp; cbn; try reflexivity;
      destruct (String.eqb_spec n "window-state.json"); subst;
      try reflexivity; now elim Hp.
  - eexists. split; [reflexivity|]. rewrite Ew, app_nil_r. repeat split; auto.
Qed.

Lemma store_saveWindowState_run (w : World) :
  Es.saveWindowState w =
  match mainWindow w with
  | None => (Ret tt, w)
  | Some win =>
      let st := state_of (win_bounds win) (win_maximized win) in
      let w1 := emit (EvStoreSet "windowState" st) w in
      if store_fault (host w) then (Throw StoreError, w1)
      else (Ret tt, set_store (Some st) w1)
  end.
Proof.
  unfold Es.saveWindowState, bind, get_mainWindow, mainWindow_isMaximized,
    mainWindow_getBounds, ask_window, store_set, ret.
  destruct (mainWindow w) eqn:Ew; [|reflexivity].
  rewrite Ew. cbn. rewrite Ew. reflexivity.
Qed.

(** *** [createWindow] after the record is loaded *)

Lemma createWindow_with_run (getWindowState : M JObject) (w w1 : World)
  (st : JObject) :
  getWindowState w = (Ret st, w1) ->
  let after := createWindow_with getWindowState w in
  let maximize := truthy (obj_get "isMaximized" st) in
  fst after = probe_outcome (probe (host w1))
  /\ content_source (snd after) = probe_content (probe (host w1))
  /\ trace (snd after) =
     (trace w1 ++ EvNewWindow (window_options st)
        :: (if maximize then [EvMaximize] else [])
        ++ wiring_events ++ probe_events (probe (host w1)))%list
  /\ host (snd after) = host w1
  /\ fs (snd after) = fs w1
  /\ exists win,
       mainWindow (snd after) = Some win
       /\ win_options win = window_options st
       /\ win_maximized win = maximize
       /\ win_listeners win = wired_listeners.
Proof.
  intros Hload. unfold createWindow_with, bind. rewrite Hload.
  unfold new_BrowserWindow, mainWindow_maximize, mainWindow_on,
    mainWindow_once, isOnline, mainWindow_loadURL, mainWindow_loadFile,
    with_window, ret, content_source, register.
  cbn [fst snd].
  destruct (truthy (obj_get "isMaximized" st)); cbn;
    destruct (probe (host w1)); cbn;
    rewrite <- ?app_assoc; cbn;
    repeat split; try reflexivity; eexists; repeat split.
Qed.

Lemma getWindowState_of_run (r : Revision) (w : World) :
  exists st evs,
    getWindowState_of r w = (Ret st, with_events w evs)
    /\ Forall (fun e => match e with
                        | EvExists _ | EvRead _ | EvError _ _ | EvStoreGet _ => True
                        | _ => False
                        end) evs.
Proof.
  destruct r; cbn [getWindowState_of].
  - exists (load_result w), (load_events w). split; [apply getWindowState_run|].
    unfold load_events.
    destruct (fs w Fs.CONFIG_FILE); [|repeat constructor].
    destruct (read_fault (host w)); [repeat constructor|].
    destruct (JSON.parse s); repeat constructor.
  - eexists _, [EvStoreGet "windowState"]. split; [reflexivity|].
    repeat constructor.
Qed.

Lemma load_result_property (k : string) (w : World) :
  starts_with_letter k = true ->
  obj_get k (load_result w) =
  match stored_property k w with
  | Some v => Some v
  | None => obj_get k Fs.defaultWindowState
  end.
Proof.
  intros Hk. unfold load_result, stored_property.
  destruct (fs w Fs.CONFIG_FILE) as [text|]; [|reflexivity].
  destruct (read_fault (host w)); [reflexivity|].
  destruct (JSON.parse text) as [v|] eqn:Ep; [|reflexivity].
  destruct (is_object v) eqn:Ev.
  - destruct v; try discriminate Ev.
    unfold spread_into. cbn [own_props].
    apply obj_get_assign. now apply (JSON_parse_distinct_keys text).
  - rewrite (spread_non_object _ _ _ Ev Hk). now destruct v.
Qed.

(** *** The wiring: a resize, move or close of the window saves *)

Lemma wired_event_saves (name : string) (w : World) (win : Window) :
  mainWindow w = Some win ->
  win_listeners win = wired_listeners ->
  name = "resize" \/ name = "move" \/ name = "close" ->
  fst (Fs.window_event name w) = Ret tt
  /\ fs (snd (Fs.window_event name w)) Fs.CONFIG_FILE = save_file w
  /\ trace (snd (Fs.window_event name w)) = (trace w ++ save_events w)%list.
Proof.
  intros Hwin Hls Hname.
  unfold Fs.window_event, window_event_with, bind, get_mainWindow, drop_once.
  rewrite Hwin. cbn beta iota. rewrite Hwin, Hls.
  match goal with |- context [set_window ?x w] => set (w2 := set_window x w) end.
  assert (run_listeners Fs.listener (filter (listens name) wired_listeners) w2
          = bind Fs.saveWindowState (fun _ => ret tt) w2) as ->
    by (destruct Hname as [-> | [-> | ->]]; reflexivity).
  destruct (saveWindowState_run w2) as (w3 & Hrun & _ & _ & _ & Htrace & Hfile & _).
  unfold bind. rewrite Hrun. cbn [fst snd ret].
  assert (save_file w2 = save_file w /\ save_events w2 = save_events w) as [Ef Ee]
    by (unfold save_file, save_events, w2; cbn; rewrite Hwin; split; reflexivity).
  rewrite Hfile, Htrace, Ef, Ee. repeat split.
Qed.

(** *** What the spread copies from an array or a string *)

Lemma index_key_inj (i j : nat) : index_key i = index_key j -> i = j.
Proof.
  unfold index_key. intros H.
  assert (Nat.to_uint i = Nat.to_uint j) as Hu.
  { pose proof (NilEmpty.usu (Nat.to_uint i)) as Hi.
    rewrite H, NilEmpty.usu in Hi. now injection Hi as ->. }
  rewrite <- (DecimalNat.Unsigned.of_to i), <- (DecimalNat.Unsigned.of_to j).
  now rewrite Hu.
Qed.

Lemma index_key_eqb (i j : nat) : (index_key i =? index_key j) = (i =? j)%nat.
Proof.
  destruct (Nat.eqb_spec i j) as [->|Hne]; [apply String.eqb_refl|].
  apply String.eqb_neq. intros H. now apply Hne, index_key_inj.
Qed.

Lemma items_props_get (items : list JValue) :
  forall k i,
    obj_get (index_key i) (items_props k items)
    = if (i <? k)%nat then None else nth_error items (i - k).
Proof.
  unfold obj_get.
  induction items as [|x r IH]; intros k i; cbn [items_props alist_get].
  - destruct (i <? k)%nat; [reflexivity | now destruct (i - k)%nat].
  - rewrite index_key_eqb, IH.
    destruct (Nat.eqb_spec i k) as [->|Hne].
    + rewrite Nat.ltb_irrefl, Nat.sub_diag. reflexivity.
    + destruct (Nat.ltb_spec i k) as [Hlt|Hge].
      * destruct (Nat.ltb_spec i (S k)); [reflexivity | lia].
      * destruct (Nat.ltb_spec i (S k)); [lia|].
        replace (i - k)%nat with (S (i - S k)) by lia. reflexivity.
Qed.

Lemma chars_props_get (s : string) :
  forall k i,
    obj_get (index_key i) (chars_props k s)
    = if (i <? k)%nat then None
      else option_map (fun c => JStr (str1 c)) (String.get (i - k) s).
Proof.
  unfold obj_get.
  induction s as [|c r IH]; intros k i; cbn [chars_props alist_get].
  - destruct (i <? k)%nat; [reflexivity | now destruct (i - k)%nat].
  - rewrite index_key_eqb, IH.
    destruct (Nat.eqb_spec i k) as [->|Hne].
    + rewrite Nat.ltb_irrefl, Nat.sub_diag. reflexivity.
    + destruct (Nat.ltb_spec i k) as [Hlt|Hge].
      * destruct (Nat.ltb_spec i (S k)); [reflexivity | lia].
      * destruct (Nat.ltb_spec i (S k)); [lia|].
        replace (i - k)%nat with (S (i - S k)) by lia. reflexivity.
Qed.

Lemma items_props_keys_from (items : list JValue) :
  forall k key, In key (keys (items_props k items)) ->
                exists j, (k <= j)%nat /\ key = index_key j.
Proof.
  induction items as [|x r IH]; intros k key; cbn; [tauto|].
  intros [<-|Hin]; [exists k; split; [lia | reflexivity]|].
  destruct (IH _ _ Hin) as (j & Hj & ->). exists j. split; [lia | reflexivity].
Qed.

Lemma chars_props_keys_from (s : string) :
  forall k key, In key (keys (chars_props k s)) ->
                exists j, (k <= j)%nat /\ key = index_key j.
Proof.
  induction s as [|c r IH]; intros k key; cbn; [tauto|].
  intros [<-|Hin]; [exists k; split; [lia | reflexivity]|].
  destruct (IH _ _ Hin) as (j & Hj & ->). exists j. split; [lia | reflexivity].
Qed.

Lemma items_props_NoDup (items : list JValue) :
  forall k, NoDup (keys (items_props k items)).
Proof.
  induction items as [|x r IH]; intros k; cbn; constructor; [|apply IH].
  intros Hin. destruct (items_props_keys_from _ _ _ Hin) as (j & Hj & E).
  apply index_key_inj in E. lia.
Qed.

Lemma chars_props_NoDup (s : string) :
  forall k, NoDup (keys (chars_props k s)).
Proof.
  induction s as [|c r IH]; intros k; cbn; constructor; [|apply IH].
  intros Hin. destruct (chars_props_keys_from _ _ _ Hin) as (j & Hj & E).
  apply index_key_inj in E. lia.
Qed.

Lemma default_has_no_index_key (i : nat) :
  obj_get (index_key i) Fs.defaultWindowState = None.
Proof.
  apply obj_get_absent. cbn.
  intros [E|[E|[E|[]]]]; symmetry in E; revert E; now apply letter_not_index.
Qed.

Lemma spread_array_index (items : list JValue) (i : nat) :
  obj_get (index_key i) (spread_into Fs.defaultWindowState (JArr items))
  = nth_error items i.
Proof.
  unfold spread_into. cbn [own_props].
  rewrite obj_get_assign by apply items_props_NoDup.
  rewrite items_props_get, default_has_no_index_key, Nat.sub_0_r.
  cbn. now destruct (nth_error items i).
Qed.

Lemma spread_string_index (s : string) (i : nat) :
  obj_get (index_key i) (spread_into Fs.defaultWindowState (JStr s))
  = option_map (fun c => JStr (str1 c)) (String.get i s).
Proof.
  unfold spread_into. cbn [own_props].
  rewrite obj_get_assign by apply chars_props_NoDup.
  rewrite chars_props_get, default_has_no_index_key, Nat.sub_0_r.
  cbn. now destruct (String.get i s).
Qed.

(** *** Numbers as the runtime reads them, at some literals *)

Lemma number_reading_examples :
  let reads_positive_integer text :=
    option_map (fun v => is_positive_integer (Some v)) (JSON.parse text) in
  reads_positive_integer "992" = Some true
  /\ reads_positive_integer "1e21" = Some true
  /\ reads_positive_integer "9007199254740993" = Some true
  /\ reads_positive_integer "0.99999999999999999999" = Some true
  /\ reads_positive_integer "1.7976931348623157e308" = Some true
  /\ reads_positive_integer "1.7976931348623159e308" = Some false
  /\ reads_positive_integer "1e400" = Some false
  /\ reads_positive_integer "1.5" = Some false
  /\ reads_positive_integer "0.5" = Some false
  /\ reads_positive_integer "1e-400" = Some false
  /\ reads_positive_integer "0" = Some false
  /\ reads_positive_integer "-3" = Some false
  /\ stored_dimensions_ok
       (sample_world quiet_host (Some infinite_width_text) None) = false.
Proof. vm_compute. repeat split. Qed.

(* ================================================================== *)
(** ** The claims *)

(** C5. With no persisted record, loading returns exactly the record of
    width 992, height 600 and isMaximized false, with neither x nor y;
    this holds in both revisions. *)
Theorem default_on_first_run (r : Revision) (w : World) :
  no_record r w ->
  exists st,
    fst (getWindowState_of r w) = Ret st
    /\ st = [ ("width", JInt 992); ("height", JInt 600);
              ("isMaximized", JBool false) ]
    /\ obj_get "x" st = None
    /\ obj_get "y" st = None.
Proof.
  intros Hno. destruct r; cbn [no_record getWindowState_of] in *.
  - rewrite getWindowState_run. unfold load_result. rewrite Hno.
    eexists. repeat split.
  - unfold Es.getWindowState, store_get. rewrite Hno.
    eexists. repeat split.
Qed.

Lemma default_on_first_run_witness :
  exists st,
    fst (getWindowState_of JsonFile (sample_world quiet_host None None)) = Ret st
    /\ st = [ ("width", JInt 992); ("height", JInt 600);
              ("isMaximized", JBool false) ]
    /\ obj_get "x" st = None
    /\ obj_get "y" st = None.
Proof.
  apply (default_on_first_run JsonFile (sample_world quiet_host None None)).
  reflexivity.
Defined.

(** C10. Loading is read-only: whatever the persisted file holds, and
    also when it is missing or cannot be read, the file system after
    [getWindowState] is the one before, and no write was attempted. *)
Theorem load_is_read_only (w : World) :
  fs (snd (Fs.getWindowState w)) = fs w
  /\ exists evs,
       trace (snd (Fs.getWindowState w)) = (trace w ++ evs)%list
       /\ forallb (fun e => negb (is_write e)) evs = true.
Proof.
  rewrite getWindowState_run. cbn [snd with_events fs trace].
  split; [reflexivity|]. exists (load_events w). split; [reflexivity|].
  unfold load_events.
  destruct (fs w Fs.CONFIG_FILE); [|reflexivity].
  destruct (read_fault (host w)); [reflexivity|].
  destruct (JSON.parse s); reflexivity.
Qed.

(** C4. When the persisted file holds a well-formed object, the loaded
    record is the default with the properties of that object written
    over it one by one: a property the object has comes from the object,
    any other from the default.  For the file with only isMaximized true
    the record is width 992, height 600, isMaximized true. *)
Theorem partial_record_merge (w : World) (text : string) (o : JObject) :
  fs w Fs.CONFIG_FILE = Some text ->
  read_fault (host w) = false ->
  JSON.parse text = Some (JObj o) ->
  exists st,
    fst (Fs.getWindowState w) = Ret st
    /\ (forall k, obj_get k st =
                  match obj_get k o with
                  | Some v => Some v
                  | None => obj_get k Fs.defaultWindowState
                  end)
    /\ (text = only_maximized_text ->
        st = [ ("width", JInt 992); ("height", JInt 600);
               ("isMaximized", JBool true) ]).
Proof.
  intros Hfile Hread Hparse. rewrite getWindowState_run.
  unfold load_result. rewrite Hfile, Hread, Hparse.
  eexists. split; [reflexivity|]. split.
  - intros k. unfold spread_into. cbn [own_props].
    apply obj_get_assign. now apply (JSON_parse_distinct_keys text).
  - intros ->. vm_compute in Hparse. injection Hparse as <-. reflexivity.
Qed.

Lemma partial_record_merge_witness :
  exists st,
    fst (Fs.getWindowState
           (sample_world quiet_host (Some only_maximized_text) None)) = Ret st
    /\ (forall k, obj_get k st =
                  match obj_get k [("isMaximized", JBool true)] with
                  | Some v => Some v
                  | None => obj_get k Fs.defaultWindowState
                  end)
    /\ (only_maximized_text = only_maximized_text ->
        st = [ ("width", JInt 992); ("height", JInt 600);
               ("isMaximized", JBool true) ]).
Proof.
  apply (partial_record_merge
           (sample_world quiet_host (Some only_maximized_text) None)
           only_maximized_text [("isMaximized", JBool true)]);
    reflexivity.
Defined.

(** C3, as the code has it.  When the persisted file is invalid or holds
    a value that is not an object, loading does not raise, and every
    field of the window state, like every property whose name does not
    start with a digit, is the default one: width 992, height 600,
    isMaximized false, no x and no y.  The record is exactly the default
    one when the file cannot be read and when the content is invalid or
    parses to null, a boolean, a number, an empty string or an empty
    array.  When the file is read and parses to a non-empty array or
    string the record is not the default one: it has a property 0; for
    an array it has each element under its index key, and nothing under
    an index past the last; for a string of ASCII characters it has each
    character under its index key. *)
Theorem malformed_file_resilience (w : World) (text : string) :
  fs w Fs.CONFIG_FILE = Some text ->
  non_object_content text = true ->
  exists st,
    fst (Fs.getWindowState w) = Ret st
    /\ obj_get "width" st = Some (JInt 992)
    /\ obj_get "height" st = Some (JInt 600)
    /\ obj_get "isMaximized" st = Some (JBool false)
    /\ obj_get "x" st = None
    /\ obj_get "y" st = None
    /\ (indexed_content text = false -> st = Fs.defaultWindowState)
    /\ (forall k, starts_with_letter k = true ->
                  obj_get k st = obj_get k Fs.defaultWindowState)
    /\ (read_fault (host w) = true -> st = Fs.defaultWindowState)
    /\ (read_fault (host w) = false -> indexed_content text = true ->
        obj_get "0" st <> None /\ st <> Fs.defaultWindowState)
    /\ (read_fault (host w) = false ->
        forall items, JSON.parse text = Some (JArr items) ->
        forall i, obj_get (index_key i) st = nth_error items i)
    /\ (read_fault (host w) = false ->
        forall s, JSON.parse text = Some (JStr s) -> ascii_only s = true ->
        forall i, obj_get (index_key i) st
                  = option_map (fun c => JStr (str1 c)) (String.get i s)).
Proof.
  intros Hfile Hnon. rewrite getWindowState_run.
  exists (load_result w). split; [reflexivity|].
  assert (forall k, stored_property k w = None) as Hstored.
  { intros k. unfold stored_property. rewrite Hfile.
    destruct (read_fault (host w)); [reflexivity|].
    unfold non_object_content in Hnon.
    destruct (JSON.parse text) as [[]|]; try reflexivity. discriminate Hnon. }
  rewrite !load_result_property, !Hstored by reflexivity.
  repeat (split; [reflexivity|]).
  split.
  { unfold load_result, indexed_content. rewrite Hfile.
    destruct (read_fault (host w)); [reflexivity|].
    unfold non_object_content in Hnon.
    destruct (JSON.parse text) as [[| | | [|] | [|] |]|]; intros Hidx;
      try reflexivity; discriminate. }
  split.
  { intros k Hk. now rewrite load_result_property, Hstored. }
  split.
  { intros Hread. unfold load_result. now rewrite Hfile, Hread. }
  assert (read_fault (host w) = false ->
          forall v, JSON.parse text = Some v ->
                    load_result w = spread_into Fs.defaultWindowState v) as Hspread.
  { intros Hread v Hv. unfold load_result. now rewrite Hfile, Hread, Hv. }
  split; [|split].
  - intros Hread Hidx. unfold indexed_content in Hidx.
    assert (obj_get "0" (load_result w) <> None) as H0.
    { destruct (JSON.parse text) as [[| | | [|c r] | [|x r] |]|] eqn:Hv;
        try discriminate Hidx; rewrite (Hspread Hread _ eq_refl).
      - change "0" with (index_key 0). rewrite spread_string_index. discriminate.
      - change "0" with (index_key 0). rewrite spread_array_index. discriminate. }
    split; [exact H0|]. intros E. rewrite E in H0. now apply H0.
  - intros Hread items Hv i. rewrite (Hspread Hread _ Hv).
    apply spread_array_index.
  - intros Hread s0 Hv _ i. rewrite (Hspread Hread _ Hv).
    apply spread_string_index.
Qed.

Lemma malformed_file_resilience_witness :
  let w := sample_world quiet_host (Some array_text) None in
  exists st,
    fst (Fs.getWindowState w) = Ret st
    /\ obj_get "width" st = Some (JInt 992)
    /\ obj_get "height" st = Some (JInt 600)
    /\ obj_get "isMaximized" st = Some (JBool false)
    /\ obj_get "x" st = None
    /\ obj_get "y" st = None
    /\ (indexed_content array_text = false -> st = Fs.defaultWindowState)
    /\ (forall k, starts_with_letter k = true ->
                  obj_get k st = obj_get k Fs.defaultWindowState)
    /\ (read_fault (host w) = true -> st = Fs.defaultWindowState)
    /\ (read_fault (host w) = false -> indexed_content array_text = true ->
        obj_get "0" st <> None /\ st <> Fs.defaultWindowState)
    /\ (read_fault (host w) = false ->
        forall items, JSON.parse array_text = Some (JArr items) ->
        forall i, obj_get (index_key i) st = nth_error items i)
    /\ (read_fault (host w) = false ->
        forall s, JSON.parse array_text = Some (JStr s) -> ascii_only s = true ->
        forall i, obj_get (index_key i) st
                  = option_map (fun c => JStr (str1 c)) (String.get i s)).
Proof.
  apply (malformed_file_resilience
           (sample_world quiet_host (Some array_text) None) array_text);
    reflexivity.
Defined.

(** C3 fails as stated: a file holding the JSON string of the two
    characters a and b is non-object content, and the record loaded from
    it is not the default one, for it has a property 0. *)
Lemma string_content_adds_index_keys :
  let w := sample_world quiet_host (Some string_text) None in
  JSON.parse string_text = Some (JStr "ab")
  /\ non_object_content string_text = true
  /\ fst (Fs.getWindowState w) <> Ret Fs.defaultWindowState
  /\ exists st, fst (Fs.getWindowState w) = Ret st
                /\ obj_get "0" st = Some (JStr "a")
                /\ obj_get "0" Fs.defaultWindowState = None.
Proof.
  cbv zeta. repeat split; try reflexivity.
  - vm_compute. discriminate.
  - eexists. repeat split; try reflexivity.
Qed.

(** C6, as the code has it.  The loaded width and height are positive
    integers for every persisted content but one kind: an object that
    itself carries a width or height the runtime does not read as a
    positive integer, be it no number, a number that is zero, negative
    or fractional, or a literal beyond the doubles, read as Infinity.
    That covers a missing, unreadable or malformed file, content that is
    not an object, and an object without these two properties.  A number
    is taken as the runtime reads it: the double nearest to the
    literal. *)
Theorem loaded_dimensions_positive (w : World) :
  stored_dimensions_ok w = true ->
  exists st,
    fst (Fs.getWindowState w) = Ret st
    /\ is_positive_integer (obj_get "width" st) = true
    /\ is_positive_integer (obj_get "height" st) = true.
Proof.
  intros Hok. rewrite getWindowState_run.
  exists (load_result w). split; [reflexivity|].
  unfold stored_dimensions_ok in Hok. apply andb_prop in Hok.
  destruct Hok as [Hw Hh].
  rewrite !load_result_property by reflexivity.
  destruct (stored_property "width" w), (stored_property "height" w);
    cbn [dimension_ok] in *; auto.
Qed.

Lemma loaded_dimensions_positive_witness :
  exists st,
    fst (Fs.getWindowState
           (sample_world quiet_host (Some only_maximized_text) None)) = Ret st
    /\ is_positive_integer (obj_get "width" st) = true
    /\ is_positive_integer (obj_get "height" st) = true.
Proof.
  apply (loaded_dimensions_positive
           (sample_world quiet_host (Some only_maximized_text) None)).
  reflexivity.
Defined.

(** C6 fails as stated: from a file holding an object of width -5 the
    loaded width is -5. *)
Lemma negative_width_is_loaded :
  let w := sample_world quiet_host (Some negative_width_text) None in
  exists st,
    fst (Fs.getWindowState w) = Ret st
    /\ obj_get "width" st = Some (JInt (-5))
    /\ is_positive_integer (obj_get "width" st) = false.
Proof. cbv zeta. eexists. repeat split. Qed.

(** C2. Saving the state of the live window and loading it again gives
    that state back in every field: width, height, x, y and isMaximized.
    The write and the read are those of a file system that works; width
    and height need not even be positive. *)
Theorem save_load_round_trip (w : World) (win : Window) :
  mainWindow w = Some win ->
  write_behaviour (host w) = WriteOk ->
  read_fault (host w) = false ->
  let b := win_bounds win in
  let w' := snd (Fs.saveWindowState w) in
  fst (Fs.saveWindowState w) = Ret tt
  /\ exists st,
       fst (Fs.getWindowState w') = Ret st
       /\ obj_get "width" st = Some (JInt (rect_width b))
       /\ obj_get "height" st = Some (JInt (rect_height b))
       /\ obj_get "x" st = Some (JInt (rect_x b))
       /\ obj_get "y" st = Some (JInt (rect_y b))
       /\ obj_get "isMaximized" st = Some (JBool (win_maximized win))
       /\ forall k, obj_get k st = obj_get k (state_of b (win_maximized win)).
Proof.
  intros Hwin Hwrite Hread b w'.
  destruct (saveWindowState_run w) as (w2 & Hrun & Hhost & _ & _ & _ & Hfile & _).
  subst w'. rewrite Hrun. cbn [fst snd]. split; [reflexivity|].
  rewrite getWindowState_run. exists (load_result w2). split; [reflexivity|].
  unfold load_result. rewrite Hfile, Hhost, Hread.
  unfold save_file. rewrite Hwin, Hwrite.
  unfold state_file_text. rewrite JSON_parse_state_of. fold b.
  repeat (split; [reflexivity|]).
  intros k. unfold spread_into. cbn [own_props].
  rewrite obj_get_assign.
  - destruct (obj_get k (state_of b (win_maximized win))) eqn:E; [reflexivity|].
    unfold obj_get in *. cbn [state_of alist_get Fs.defaultWindowState] in *.
    destruct (k =? "width"); [discriminate E|].
    destruct (k =? "height"); [discriminate E|].
    destruct (k =? "x"); [discriminate E|].
    destruct (k =? "y"); [discriminate E|].
    destruct (k =? "isMaximized"); [discriminate E|]. reflexivity.
  - cbn. repeat constructor; cbn; intuition discriminate.
Qed.

Lemma save_load_round_trip_witness :
  let w := sample_world quiet_host None (Some sample_window) in
  let w' := snd (Fs.saveWindowState w) in
  fst (Fs.saveWindowState w) = Ret tt
  /\ exists st,
       fst (Fs.getWindowState w') = Ret st
       /\ obj_get "width" st = Some (JInt 1024)
       /\ obj_get "height" st = Some (JInt 768)
       /\ obj_get "x" st = Some (JInt 40)
       /\ obj_get "y" st = Some (JInt 25)
       /\ obj_get "isMaximized" st = Some (JBool false)
       /\ forall k, obj_get k st
                    = obj_get k (state_of (win_bounds sample_window) false).
Proof.
  apply (save_load_round_trip
           (sample_world quiet_host None (Some sample_window)) sample_window);
    reflexivity.
Defined.

(** C9. Without a live window the geometry-save handler returns at once
    and changes nothing: no write is attempted, the persisted record and
    the whole world are as before.  Both revisions. *)
Theorem save_without_window_is_noop (r : Revision) (w : World) :
  mainWindow w = None ->
  saveWindowState_of r w = (Ret tt, w).
Proof.
  intros Hnone.
  destruct r; cbn [saveWindowState_of];
    unfold Fs.saveWindowState, Es.saveWindowState, bind, get_mainWindow;
    rewrite Hnone; reflexivity.
Qed.

Lemma save_without_window_is_noop_witness :
  saveWindowState_of JsonFile (sample_world quiet_host (Some broken_text) None)
  = (Ret tt, sample_world quiet_host (Some broken_text) None).
Proof.
  apply (save_without_window_is_noop JsonFile
           (sample_world quiet_host (Some broken_text) None)).
  reflexivity.
Defined.

(** C8, as the code has it.  In the revision that writes the JSON file
    itself, saving never raises: the call makes at most one write, and a
    write that fails is followed by one log entry and nothing else, so it
    is not retried.  In the revision on electron-store there is no
    handler: when the store fails to write, the error reaches the
    caller, and nothing is logged. *)
Theorem save_write_failure (w : World) :
  (fst (Fs.saveWindowState w) = Ret tt
   /\ trace (snd (Fs.saveWindowState w)) = (trace w ++ save_events w)%list
   /\ (List.length (filter is_write (save_events w)) <= 1)%nat)
  /\ fst (Es.saveWindowState w) =
     match mainWindow w with
     | None => Ret tt
     | Some _ => if store_fault (host w) then Throw StoreError else Ret tt
     end
  /\ forallb (fun e => match e with EvError _ _ => false | _ => true end)
       (skipn (List.length (trace w)) (trace (snd (Es.saveWindowState w))))
     = true.
Proof.
  destruct (saveWindowState_run w) as (w2 & Hrun & _ & _ & _ & Htrace & _).
  rewrite Hrun. cbn [fst snd]. repeat split.
  - exact Htrace.
  - unfold save_events. destruct (mainWindow w); [|cbn; lia].
    destruct (write_behaviour (host w)); cbn; lia.
  - rewrite store_saveWindowState_run.
    destruct (mainWindow w); [|reflexivity].
    cbv zeta. destruct (store_fault (host w)); reflexivity.
  - rewrite store_saveWindowState_run.
    destruct (mainWindow w).
    + cbv zeta. destruct (store_fault (host w)); cbn [snd trace emit set_store];
        now rewrite skipn_app, skipn_all, Nat.sub_diag.
    + cbn [snd]. now rewrite skipn_all.
Qed.

(** C8 fails as stated on the revision of main.ts: with a live window
    and a store whose write fails, [saveWindowState] raises. *)
Lemma store_failure_reaches_caller :
  let w := sample_world (sample_host ProbeOnline WriteOk true) None
             (Some sample_window) in
  store_fault (host w) = true
  /\ fst (saveWindowState_of ElectronStore w) = Throw StoreError.
Proof. cbv zeta. split; reflexivity. Qed.

(** C1, as the code has it.  The probe decides what the window shows:
    the remote URL when it answers true, the local fallback document
    when it answers false.  A probe that throws is not caught:
    [createWindow] raises the error and the window, though created, is
    given no content.  Both revisions. *)
Theorem load_decision (r : Revision) (w : World) :
  let after := createWindow_of r w in
  match probe (host w) with
  | ProbeOnline =>
      fst after = Ret tt
      /\ content_source (snd after) = Some (Remote "https://monkeytype.com/")
  | ProbeOffline =>
      fst after = Ret tt
      /\ content_source (snd after) = Some (LocalFile "offline.html")
  | ProbeThrows =>
      fst after = Throw ProbeError
      /\ content_source (snd after) = None
      /\ mainWindow (snd after) <> None
  end.
Proof.
  destruct (getWindowState_of_run r w) as (st & evs & Hload & _).
  assert (createWindow_of r = createWindow_with (getWindowState_of r)) as ->
    by (now destruct r).
  destruct (createWindow_with_run _ _ _ _ Hload)
    as (Hout & Hcontent & _ & _ & _ & win & Hwin & _).
  cbn [host with_events] in Hout, Hcontent. cbv zeta.
  rewrite Hout, Hcontent, Hwin.
  destruct (probe (host w)); repeat split; discriminate.
Qed.

(** C1 fails as stated: when the probe throws, the window is not given
    the fallback document; [createWindow] raises instead. *)
Lemma throwing_probe_is_not_caught :
  let w := sample_world (sample_host ProbeThrows WriteOk false) None None in
  probe (host w) = ProbeThrows
  /\ fst (createWindow_of JsonFile w) = Throw ProbeError
  /\ content_source (snd (createWindow_of JsonFile w))
     <> Some (LocalFile "offline.html")
  /\ fst (createWindow_of ElectronStore w) = Throw ProbeError
  /\ content_source (snd (createWindow_of ElectronStore w))
     <> Some (LocalFile "offline.html").
Proof. cbv zeta. repeat split; try reflexivity; vm_compute; discriminate. Qed.

(** C7. When the loaded record has isMaximized true, the window is first
    created with the width, height, x and y of the record and without
    any maximize option, and maximized by a separate call only after
    that; at the end the window is maximized and still carries the
    options it was created with.  Both revisions. *)
Theorem maximize_after_creation (r : Revision) (w w1 : World) (st : JObject) :
  getWindowState_of r w = (Ret st, w1) ->
  truthy (obj_get "isMaximized" st) = true ->
  let w' := snd (createWindow_of r w) in
  let o := window_options st in
  (opt_width o = obj_get "width" st /\ opt_height o = obj_get "height" st
   /\ opt_x o = obj_get "x" st /\ opt_y o = obj_get "y" st)
  /\ trace w' =
     (trace w1 ++ [EvNewWindow o; EvMaximize] ++ wiring_events
        ++ probe_events (probe (host w1)))%list
  /\ (forall e, In e (skipn (List.length (trace w)) (trace w1)) ->
      e <> EvNewWindow o /\ e <> EvMaximize)
  /\ exists win,
       mainWindow w' = Some win
       /\ win_options win = o
       /\ win_maximized win = true.
Proof.
  intros Hload Hmax.
  assert (createWindow_of r = createWindow_with (getWindowState_of r)) as ->
    by (now destruct r).
  destruct (createWindow_with_run _ _ _ _ Hload)
    as (_ & _ & Htrace & _ & _ & win & Hwin & Hopts & Hmaxd & _).
  cbv zeta. rewrite Hmax in *. repeat split.
  - exact Htrace.
  - destruct (getWindowState_of_run r w) as (st' & evs & Hload' & Hevs).
    rewrite Hload in Hload'. injection Hload' as _ ->.
    cbn [trace with_events] in H.
    rewrite skipn_app, skipn_all, Nat.sub_diag in H. cbn [skipn app] in H.
    rewrite Forall_forall in Hevs. specialize (Hevs _ H).
    intros ->. exact Hevs.
  - destruct (getWindowState_of_run r w) as (st' & evs & Hload' & Hevs).
    rewrite Hload in Hload'. injection Hload' as _ ->.
    cbn [trace with_events] in H.
    rewrite skipn_app, skipn_all, Nat.sub_diag in H. cbn [skipn app] in H.
    rewrite Forall_forall in Hevs. specialize (Hevs _ H).
    intros ->. exact Hevs.
  - exists win. auto.
Qed.

Lemma maximize_after_creation_witness :
  let w := sample_world quiet_host (Some only_maximized_text) None in
  let w1 := snd (Fs.getWindowState w) in
  let st := [ ("width", JInt 992); ("height", JInt 600);
              ("isMaximized", JBool true) ] in
  let w' := snd (createWindow_of JsonFile w) in
  let o := window_options st in
  (opt_width o = obj_get "width" st /\ opt_height o = obj_get "height" st
   /\ opt_x o = obj_get "x" st /\ opt_y o = obj_get "y" st)
  /\ trace w' =
     (trace w1 ++ [EvNewWindow o; EvMaximize] ++ wiring_events
        ++ probe_events (probe (host w1)))%list
  /\ (forall e, In e (skipn (List.length (trace w)) (trace w1)) ->
      e <> EvNewWindow o /\ e <> EvMaximize)
  /\ exists win,
       mainWindow w' = Some win
       /\ win_options win = o
       /\ win_maximized win = true.
Proof.
  apply (maximize_after_creation JsonFile
           (sample_world quiet_host (Some only_maximized_text) None));
    reflexivity.
Defined.

(* ================================================================== *)
(** ** Further properties of the program *)

Lemma new_events_app (w w' : World) (evs : list Event) :
  trace w' = (trace w ++ evs)%list -> new_events w w' = evs.
Proof.
  intros H. unfold new_events.
  now rewrite H, skipn_app, skipn_all, Nat.sub_diag.
Qed.

(** X1. Loading never raises, whatever the file holds and whatever the
    file system does, and the record it returns always has a width, a
    height and an isMaximized property. *)
Theorem load_never_raises (w : World) :
  exists st,
    fst (Fs.getWindowState w) = Ret st
    /\ obj_get "width" st <> None
    /\ obj_get "height" st <> None
    /\ obj_get "isMaximized" st <> None.
Proof.
  rewrite getWindowState_run. exists (load_result w). split; [reflexivity|].
  rewrite !load_result_property by reflexivity.
  repeat split;
    match goal with
    | |- context [stored_property ?k w] => destruct (stored_property k w)
    end; discriminate.
Qed.

(** X2. A failed load, of a file that is there but cannot be read or
    parsed, is logged exactly once and gives exactly the default record;
    a load that does not fail, of a missing file or of one that parses,
    logs nothing. *)
Theorem load_logs_failures_only (w : World) :
  let after := Fs.getWindowState w in
  let logged := filter is_error_event (new_events w (snd after)) in
  if load_fails w
  then fst after = Ret Fs.defaultWindowState
       /\ exists e, logged = [EvError "Failed to load window state:" e]
  else logged = [].
Proof.
  cbv zeta. rewrite getWindowState_run. cbn [fst snd].
  rewrite (new_events_app w _ (load_events w)) by reflexivity.
  unfold load_fails, load_result, load_events.
  destruct (fs w Fs.CONFIG_FILE) as [text|]; [|reflexivity].
  destruct (read_fault (host w)); cbn [orb].
  - split; [reflexivity|]. eexists. reflexivity.
  - destruct (JSON.parse text); [reflexivity|].
    split; [reflexivity|]. eexists. reflexivity.
Qed.



Lemma createWindow_with_window (getWindowState : M JObject) (w w1 : World)
  (st : JObject) :
  getWindowState w = (Ret st, w1) ->
  let after := snd (createWindow_with getWindowState w) in
  mainWindow after = Some (created_window (host w1) st)
  /\ store_windowState after = store_windowState w1
  /\ host after = host w1
  /\ fs after = fs w1.
Proof.
  intros Hload. unfold createWindow_with, bind. rewrite Hload.
  unfold new_BrowserWindow, mainWindow_maximize, mainWindow_on,
    mainWindow_once, isOnline, mainWindow_loadURL, mainWindow_loadFile,
    with_window, ret, register, created_window.
  cbn [fst snd].
  destruct (truthy (obj_get "isMaximized" st)); cbn;
    destruct (probe (host w1)); cbn; repeat split.
Qed.

Lemma load_events_no_write (r : Revision) (w : World) :
  exists st evs,
    getWindowState_of r w = (Ret st, with_events w evs)
    /\ forallb (fun e => negb (is_write e)) evs = true.
Proof.
  destruct (getWindowState_of_run r w) as (st & evs & Hload & Hevs).
  exists st, evs. split; [exact Hload|].
  apply forallb_forall. intros e He.
  rewrite Forall_forall in Hevs. specialize (Hevs e He).
  destruct e; try contradiction; reflexivity.
Qed.

Lemma createWindow_until_await_effects (getWindowState : M JObject)
  (w w1 : World) (st : JObject) :
  getWindowState w = (Ret st, w1) ->
  let before := snd (createWindow_until_await getWindowState w) in
  fs before = fs w1
  /\ store_windowState before = store_windowState w1
  /\ trace before =
     (trace w1 ++ EvNewWindow (window_options st)
        :: (if truthy (obj_get "isMaximized" st) then [EvMaximize] else [])
        ++ wiring_events)%list.
Proof.
  intros Hload. unfold createWindow_until_await, bind. rewrite Hload.
  unfold new_BrowserWindow, mainWindow_maximize, mainWindow_on,
    mainWindow_once, isOnline_called, with_window, ret, register.
  destruct (truthy (obj_get "isMaximized" st)); cbn;
    rewrite <- ?app_assoc; repeat split.
Qed.

(** X4. The steps of [createWindow] never write.  Up to its await
    (load, create, maximize, register the listeners, start the probe)
    it leaves the files and the store as they were and none of its
    effects is a write; after the await, from whatever world the answer
    of the probe finds, it again leaves them as they are and writes
    nothing.  Both revisions, whatever the probe answers. *)
Theorem createWindow_steps_never_write (r : Revision) (w w' : World) :
  let before := snd (createWindow_until_await (getWindowState_of r) w) in
  let after := snd (createWindow_after_await w') in
  (fs before = fs w
   /\ store_windowState before = store_windowState w
   /\ forallb (fun e => negb (is_write e)) (new_events w before) = true)
  /\ (fs after = fs w'
      /\ store_windowState after = store_windowState w'
      /\ forallb (fun e => negb (is_write e)) (new_events w' after) = true).
Proof.
  cbv zeta. split.
  - destruct (load_events_no_write r w) as (st & evs & Hload & Hevs).
    destruct (createWindow_until_await_effects _ _ _ _ Hload)
      as (Hfs & Hstore & Htrace).
    repeat split; [exact Hfs | exact Hstore |].
    cbn [trace with_events] in Htrace. rewrite <- app_assoc in Htrace.
    rewrite (new_events_app _ _ _ Htrace), forallb_app, Hevs.
    destruct (truthy (obj_get "isMaximized" st)); reflexivity.
  - unfold createWindow_after_await, bind, isOnline_settled,
      mainWindow_loadURL, mainWindow_loadFile, with_window, new_events.
    destruct (probe (host w')), (mainWindow w'); cbn [snd fs store_windowState
      set_window emit trace];
      rewrite ?skipn_app, ?skipn_all, ?Nat.sub_diag; repeat split.
Qed.

Lemma wired_event_run (name : string) (w : World) (win : Window) :
  mainWindow w = Some win ->
  win_listeners win = wired_listeners ->
  name = "resize" \/ name = "move" \/ name = "close" ->
  exists w',
    Fs.window_event name w = (Ret tt, w')
    /\ host w' = host w
    /\ fs w' Fs.CONFIG_FILE = save_file w.
Proof.
  intros Hwin Hls Hname.
  unfold Fs.window_event, window_event_with, bind, get_mainWindow, drop_once.
  rewrite Hwin. cbn beta iota. rewrite Hwin, Hls.
  match goal with |- context [set_window ?x w] => set (w2 := set_window x w) end.
  assert (run_listeners Fs.listener (filter (listens name) wired_listeners) w2
          = bind Fs.saveWindowState (fun _ => ret tt) w2) as ->
    by (destruct Hname as [-> | [-> | ->]]; reflexivity).
  destruct (saveWindowState_run w2) as (w3 & Hrun & Hhost & _ & _ & _ & Hfile & _).
  unfold bind. rewrite Hrun. exists w3. split; [reflexivity|].
  split; [exact Hhost|]. rewrite Hfile.
  unfold save_file, w2. cbn. now rewrite Hwin.
Qed.

(** X5. Once the window is created, a resize, move or close event saves
    the bounds the window has at that moment: loading afterwards gives
    the width, height, x and y the user left the window with, and the
    maximized flag of the window, not the geometry of startup.  The
    write and the read are those of a file system that works. *)
Theorem geometry_change_is_persisted (w : World) (b : Rectangle) (name : string) :
  name = "resize" \/ name = "move" \/ name = "close" ->
  write_behaviour (host w) = WriteOk ->
  read_fault (host w) = false ->
  let w1 := snd (Fs.createWindow w) in
  let w2 := snd (user_sets_bounds b w1) in
  let w3 := snd (Fs.window_event name w2) in
  exists st win,
    fst (Fs.getWindowState w3) = Ret st
    /\ mainWindow w1 = Some win
    /\ obj_get "width" st = Some (JInt (rect_width b))
    /\ obj_get "height" st = Some (JInt (rect_height b))
    /\ obj_get "x" st = Some (JInt (rect_x b))
    /\ obj_get "y" st = Some (JInt (rect_y b))
    /\ obj_get "isMaximized" st = Some (JBool (win_maximized win)).
Proof.
  intros Hname Hwrite Hread. cbv zeta.
  destruct (createWindow_with_window _ _ _ _ (getWindowState_run w))
    as (Hwin & _ & Hhost & _).
  fold Fs.createWindow in Hwin, Hhost. cbn [host with_events] in Hwin, Hhost.
  set (w1 := snd (Fs.createWindow w)) in *.
  set (win := created_window (host w) (load_result w)) in *.
  unfold user_sets_bounds. rewrite Hwin. cbn [snd].
  set (w2 := set_window (Some (set_bounds b win)) w1).
  destruct (wired_event_run name w2 (set_bounds b win) eq_refl eq_refl Hname)
    as (w3 & Hrun & Hhost3 & Hfile).
  rewrite Hrun. cbn [snd]. rewrite getWindowState_run.
  exists (load_result w3), win. split; [reflexivity|]. split; [reflexivity|].
  unfold load_result. rewrite Hfile, Hhost3.
  unfold save_file, w2. cbn [mainWindow set_window host].
  rewrite Hhost, Hwrite, Hread.
  unfold state_file_text. rewrite JSON_parse_state_of.
  repeat split.
Qed.

Lemma geometry_change_is_persisted_witness :
  let w := sample_world quiet_host None None in
  let b := {| rect_x := 7; rect_y := 9; rect_width := 1280; rect_height := 720 |} in
  let w1 := snd (Fs.createWindow w) in
  let w2 := snd (user_sets_bounds b w1) in
  let w3 := snd (Fs.window_event "resize" w2) in
  exists st win,
    fst (Fs.getWindowState w3) = Ret st
    /\ mainWindow w1 = Some win
    /\ obj_get "width" st = Some (JInt 1280)
    /\ obj_get "height" st = Some (JInt 720)
    /\ obj_get "x" st = Some (JInt 7)
    /\ obj_get "y" st = Some (JInt 9)
    /\ obj_get "isMaximized" st = Some (JBool (win_maximized win)).
Proof.
  apply (geometry_change_is_persisted (sample_world quiet_host None None)
           {| rect_x := 7; rect_y := 9; rect_width := 1280; rect_height := 720 |}
           "resize");
    [left; reflexivity | reflexivity | reflexivity].
Defined.

Lemma listener_keeps_page (r : Revision) (l : Listener) (w : World) :
  page_of (snd (listener_of r l w)) = page_of w.
Proof.
  unfold page_of. destruct r, l; cbn [listener_of Fs.listener Es.listener].
  - destruct (saveWindowState_run w) as (w' & Hrun & _ & Hwin & _).
    rewrite Hrun. cbn [snd]. now rewrite Hwin.
  - unfold mainWindow_show, with_window.
    destruct (mainWindow w) eqn:E; cbn; [reflexivity | now rewrite E].
  - rewrite store_saveWindowState_run.
    destruct (mainWindow w) eqn:E; cbn; [|now rewrite E].
    destruct (store_fault (host w)); cbn; now rewrite E.
  - unfold mainWindow_show, with_window.
    destruct (mainWindow w) eqn:E; cbn; [reflexivity | now rewrite E].
Qed.

Lemma run_listeners_keep_page (r : Revision) (ls : list Registration) :
  forall w, page_of (snd (run_listeners (listener_of r) ls w)) = page_of w.
Proof.
  induction ls as [|g ls IH]; intros w; cbn [run_listeners]; [reflexivity|].
  unfold bind.
  pose proof (listener_keeps_page r (reg_listener g) w) as Hl.
  destruct (listener_of r (reg_listener g) w) as [[[]|e] w']; cbn [snd] in *.
  - now rewrite IH.
  - exact Hl.
Qed.

(** X6. The load decision is taken once: whatever listeners the window
    has, no window event changes what the window shows or the options
    it was created with, also when a listener throws.  Both revisions. *)
Theorem window_events_keep_content (r : Revision) (name : string) (w : World) :
  let w' := snd (window_event_of r name w) in
  content_source w' = content_source w
  /\ option_map win_options (mainWindow w')
     = option_map win_options (mainWindow w).
Proof.
  assert (page_of (snd (window_event_of r name w)) = page_of w) as H.
  { assert (window_event_of r = window_event_with (listener_of r)) as ->
      by (now destruct r).
    unfold window_event_with, bind, get_mainWindow, drop_once.
    destruct (mainWindow w) as [win|] eqn:E; cbn beta iota; [|reflexivity].
    rewrite E. rewrite run_listeners_keep_page.
    unfold page_of. cbn. now rewrite E. }
  cbv zeta. unfold page_of, content_source in *.
  destruct (mainWindow (snd (window_event_of r name w))), (mainWindow w);
    try discriminate; [|split; reflexivity].
  injection H as Hc Ho. cbn. now rewrite Hc, Ho.
Qed.

(** X7. A window whose record is not maximized is created hidden and is
    shown by its first ready-to-show event; the listener that shows it
    runs once: it is gone after that event, and a second ready-to-show
    does nothing. *)
Theorem shown_when_ready (w : World) (st : JObject) :
  fst (Fs.getWindowState w) = Ret st ->
  truthy (obj_get "isMaximized" st) = false ->
  let w1 := snd (Fs.createWindow w) in
  let w2 := snd (Fs.window_event "ready-to-show" w1) in
  let w3 := snd (Fs.window_event "ready-to-show" w2) in
  window_visible w1 = false
  /\ window_visible w2 = true
  /\ new_events w1 w2 = [EvShow]
  /\ window_listeners w2 = registered_on
  /\ new_events w2 w3 = []
  /\ window_visible w3 = true.
Proof.
  intros Hst Hmax. rewrite getWindowState_run in Hst. injection Hst as <-.
  cbv zeta.
  destruct (createWindow_with_window _ _ _ _ (getWindowState_run w))
    as (Hwin & _).
  fold Fs.createWindow in Hwin. cbn [host with_events] in Hwin.
  set (w1 := snd (Fs.createWindow w)) in *.
  unfold created_window in Hwin. rewrite Hmax in Hwin.
  unfold Fs.window_event, window_event_with, bind, get_mainWindow, drop_once,
    new_events, window_visible, window_listeners.
  rewrite Hwin. cbn. rewrite Hwin. cbn.
  rewrite skipn_app, !skipn_all, Nat.sub_diag. 
  repeat split.
Qed.

Lemma shown_when_ready_witness :
  let w := sample_world quiet_host None None in
  let w1 := snd (Fs.createWindow w) in
  let w2 := snd (Fs.window_event "ready-to-show" w1) in
  let w3 := snd (Fs.window_event "ready-to-show" w2) in
  window_visible w1 = false
  /\ window_visible w2 = true
  /\ new_events w1 w2 = [EvShow]
  /\ window_listeners w2 = registered_on
  /\ new_events w2 w3 = []
  /\ window_visible w3 = true.
Proof.
  apply (shown_when_ready (sample_world quiet_host None None)
           Fs.defaultWindowState); reflexivity.
Defined.

(* ------------------------------------------------------------------ *)
(** *** Requests *)

Lemma header_set_same (name v : string) (h : Headers) :
  header name (alist_set String.eqb name v h) = Some v.
Proof.
  unfold header. induction h as [|[k' v'] h IH]; cbn [alist_set alist_get].
  - now rewrite String.eqb_refl.
  - destruct (name =? k') eqn:E; cbn [alist_get]; rewrite E; auto.
Qed.

Lemma header_set_other (name name' v : string) (h : Headers) :
  name <> name' ->
  header name (alist_set String.eqb name' v h) = header name h.
Proof.
  intros Hne. unfold header.
  induction h as [|[k0 v0] h IH]; cbn [alist_set alist_get].
  - apply String.eqb_neq in Hne. now rewrite Hne.
  - destruct (name' =? k0) eqn:E; cbn [alist_get].
    + apply String.eqb_eq in E. subst k0.
      apply String.eqb_neq in Hne. now rewrite Hne.
    + now rewrite IH.
Qed.

Lemma alist_set_twice (name v : string) (h : Headers) :
  alist_set String.eqb name v (alist_set String.eqb name v h)
  = alist_set String.eqb name v h.
Proof.
  induction h as [|[k0 v0] h IH]; cbn [alist_set].
  - now rewrite String.eqb_refl.
  - destruct (name =? k0) eqn:E; cbn [alist_set]; rewrite E; [reflexivity|].
    now rewrite IH.
Qed.

(** X8. Every outbound request leaves with the fixed User-Agent, whatever
    it carried before; every header of another name, also one that
    differs from User-Agent only in case, is passed on unchanged; the
    request is never cancelled; and rewriting twice is rewriting once. *)
Theorem user_agent_is_overwritten (details : Headers) :
  let response := onBeforeSendHeaders details in
  cancel response = false
  /\ header "User-Agent" (requestHeaders response) = Some USER_AGENT
  /\ (forall name, name <> "User-Agent" ->
        header name (requestHeaders response) = header name details)
  /\ onBeforeSendHeaders (requestHeaders response) = response.
Proof.
  cbv zeta. unfold onBeforeSendHeaders. cbn [cancel requestHeaders].
  repeat split.
  - apply header_set_same.
  - intros name Hne. now apply header_set_other.
  - now rewrite alist_set_twice.
Qed.

(* ------------------------------------------------------------------ *)
(** *** Shortcuts inside the window *)

Ltac key_cases k :=
  destruct (String.eqb_spec k "r") as [->|?];
  [|destruct (String.eqb_spec k "R") as [->|?];
    [|destruct (String.eqb_spec k "F11") as [->|?];
      [|destruct (String.eqb_spec k "f") as [->|?];
        [|destruct (String.eqb_spec k "=") as [->|?];
          [|destruct (String.eqb_spec k "-") as [->|?];
            [|destruct (String.eqb_spec k "0") as [->|?];
              [|destruct (String.eqb_spec k "i") as [->|?]]]]]]]].

(** X9. One input event triggers at most one shortcut: either the
    listener calls nothing at all, or it makes exactly one call on the
    web contents followed by exactly one preventDefault. *)
Theorem one_shortcut_per_input (input : Input) (pg : Page) :
  let pg' := before_input_event input pg in
  web_calls pg' = web_calls pg
  \/ exists c, c <> PreventDefault
               /\ web_calls pg' = (web_calls pg ++ [c; PreventDefault])%list.
Proof.
  destruct input as [k m c s]. cbv zeta.
  unfold before_input_event, command_held.
  cbn [in_key in_meta in_control in_shift].
  key_cases k; cbn [String.eqb Ascii.eqb Bool.eqb andb orb];
    destruct m, c, s; cbn [andb orb negb];
    try (left; reflexivity);
    right; eexists; (split; [|cbn; rewrite <- app_assoc; reflexivity]);
    discriminate.
Qed.

(** X10. Without Command or Control held, F11 is the only key the
    listener reacts to: for any other key it calls nothing, prevents
    nothing and leaves the page as it is. *)
Theorem only_F11_without_command (input : Input) (pg : Page) :
  in_meta input = false ->
  in_control input = false ->
  in_key input <> "F11" ->
  before_input_event input pg = pg.
Proof.
  destruct input as [k m c s]. cbn [in_key in_meta in_control in_shift].
  intros -> -> Hk. unfold before_input_event, command_held.
  cbn [in_key in_meta in_control in_shift orb andb].
  apply String.eqb_neq in Hk. rewrite Hk.
  now rewrite !andb_false_r.
Qed.

Lemma only_F11_without_command_witness :
  before_input_event
    {| in_key := "r"; in_meta := false; in_control := false; in_shift := true |}
    sample_page = sample_page.
Proof.
  apply (only_F11_without_command
           {| in_key := "r"; in_meta := false; in_control := false;
              in_shift := true |} sample_page);
    [reflexivity | reflexivity | discriminate].
Defined.

(** X11. Shift separates the two reloads, and the key is compared with
    its case: with Command or Control held, r reloads only when Shift is
    up and R reloads ignoring the cache only when Shift is down, while r
    with Shift down and R with Shift up do nothing. *)
Theorem reload_and_hard_reload (input : Input) (pg : Page) :
  command_held input = true ->
  in_key input = "r" \/ in_key input = "R" ->
  web_calls (before_input_event input pg) =
  if (in_key input =? "r") && negb (in_shift input)
  then (web_calls pg ++ [Reload; PreventDefault])%list
  else if (in_key input =? "R") && in_shift input
       then (web_calls pg ++ [ReloadIgnoringCache; PreventDefault])%list
       else web_calls pg.
Proof.
  destruct input as [k m c s]. unfold command_held.
  cbn [in_key in_meta in_control in_shift].
  intros Hheld [-> | ->]; unfold before_input_event, command_held;
    cbn [in_key in_meta in_control in_shift]; rewrite Hheld;
    cbn [String.eqb Ascii.eqb Bool.eqb andb orb];
    destruct s; cbn [andb orb negb]; try reflexivity;
    cbn; now rewrite <- app_assoc.
Qed.

Lemma reload_and_hard_reload_witness :
  web_calls
    (before_input_event
       {| in_key := "R"; in_meta := false; in_control := true; in_shift := true |}
       sample_page)
  = [ReloadIgnoringCache; PreventDefault].
Proof.
  apply (reload_and_hard_reload
           {| in_key := "R"; in_meta := false; in_control := true;
              in_shift := true |} sample_page);
    [reflexivity | right; reflexivity].
Defined.

(* ------------------------------------------------------------------ *)
(** *** The global shortcut *)


(* ------------------------------------------------------------------ *)
(** *** Startup *)

Lemma createWindow_with_split (getWindowState : M JObject) (w : World) :
  createWindow_with getWindowState w
  = bind (createWindow_until_await getWindowState)
      (fun _ => createWindow_after_await) w.
Proof.
  unfold createWindow_with, createWindow_until_await, createWindow_after_await,
    bind, new_BrowserWindow, mainWindow_maximize, mainWindow_on,
    mainWindow_once, isOnline, isOnline_called, isOnline_settled,
    mainWindow_loadURL, mainWindow_loadFile, with_window, ret, register.
  destruct (getWindowState w) as [[st|e] w1]; [|reflexivity].
  destruct (truthy (obj_get "isMaximized" st)); cbn;
    destruct (probe (host w1)); reflexivity.
Qed.

Lemma createWindow_until_await_run (getWindowState : M JObject) (w w1 : World)
  (st : JObject) :
  getWindowState w = (Ret st, w1) ->
  exists w',
    createWindow_until_await getWindowState w = (Ret tt, w')
    /\ host w' = host w1
    /\ exists win, mainWindow w' = Some win /\ win_content win = None.
Proof.
  intros Hload. unfold createWindow_until_await, bind. rewrite Hload.
  unfold new_BrowserWindow, mainWindow_maximize, mainWindow_on,
    mainWindow_once, isOnline_called, with_window, ret, register.
  destruct (truthy (obj_get "isMaximized" st)); cbn;
    eexists; (split; [reflexivity|]); cbn; (split; [reflexivity|]);
    eexists; split; reflexivity.
Qed.

(** X13. In the revision that awaits [createWindow], the tray, the
    shortcuts, the notification, the permission handler, the header
    rule and the activate listener are set up, in this order, only after
    the probe has answered; when the probe throws, the ready callback
    is rejected with that error and none of them is set up.  The window
    and its files are in both cases as [createWindow] leaves them. *)
Theorem ready_awaits_the_window (s : Shell) :
  let after := whenReady_Fs s in
  world (snd after) = snd (Fs.createWindow (world s))
  /\ match probe (host (world s)) with
     | ProbeThrows =>
         fst after = Throw ProbeError
         /\ shell_calls (snd after) = shell_calls s
     | _ =>
         fst after = Ret tt
         /\ shell_calls (snd after)
            = (shell_calls s
               ++ startup_calls (notifications_supported s) true)%list
     end.
Proof.
  destruct s as [w sup calls]. cbv zeta.
  destruct (createWindow_with_run _ _ _ _ (getWindowState_run w))
    as (Hout & _ & _ & _ & _ & win & Hwin & _).
  fold Fs.createWindow in Hout, Hwin. cbn [host with_events] in Hout.
  unfold whenReady_Fs, sbind, lift. cbn [world].
  destruct (Fs.createWindow w) as [o w'] eqn:E. cbn [fst snd] in *.
  subst o.
  unfold createTray, registerShortcuts, scheduleMorningNotification,
    install_session_handlers, sbind, lift, shell_call, get_mainWindow,
    set_world, startup_calls.
  destruct (probe (host w)); cbn; rewrite ?Hwin; cbn.
  all: destruct sup; cbn; rewrite <- ?app_assoc.
  all: repeat split.
Qed.

(** X14. In the revision of main.ts the ready callback does not wait:
    whatever the probe will answer, it returns normally with the window
    created but showing nothing yet, and with the tray, the
    notification, the permission handler, the header rule and the
    activate listener set up.  When the probe answers, the window and
    its files end as [createWindow] leaves them, and nothing more is
    set up. *)
Theorem ready_does_not_await (s : Shell) :
  let ready := whenReady_Es s in
  let settled := probe_settles (Ret tt) (snd ready) in
  fst ready = Ret (Ret tt)
  /\ shell_calls (snd ready)
     = (shell_calls s ++ startup_calls (notifications_supported s) false)%list
  /\ mainWindow (world (snd ready)) <> None
  /\ content_source (world (snd ready)) = None
  /\ fst settled = fst (Es.createWindow (world s))
  /\ world (snd settled) = snd (Es.createWindow (world s))
  /\ shell_calls (snd settled) = shell_calls (snd ready).
Proof.
  destruct s as [w sup calls]. cbv zeta.
  assert (Es.getWindowState w
          = (Ret (match store_windowState w with
                  | Some v => v
                  | None => Es.store_defaults
                  end), emit (EvStoreGet "windowState") w)) as Hload
    by reflexivity.
  destruct (createWindow_until_await_run _ _ _ _ Hload)
    as (w' & Hrun & Hhost & win & Hwin & Hcontent).
  cbn [world]. unfold Es.createWindow. rewrite createWindow_with_split.
  unfold bind. rewrite Hrun.
  unfold whenReady_Es, call_async, sbind, lift. cbn [world]. rewrite Hrun.
  unfold createTray, scheduleMorningNotification, install_session_handlers,
    sbind, shell_call, set_world, sret, startup_calls, probe_settles, lift,
    content_source.
  cbn [world notifications_supported shell_calls fst snd].
  destruct sup; cbn [world notifications_supported shell_calls fst snd];
    rewrite Hwin, Hcontent;
    destruct (createWindow_after_await w') as [o w'']; cbn;
    rewrite <- ?app_assoc; repeat split; discriminate.
Qed.
